(** * check_postfix_blocked.py: a Nagios plugin counting blocked Postfix mail

    A shallow embedding of [src/check_postfix_blocked.py] and the proofs of
    its specification.

    Modelling choices.
    - A log line is a string of 8-bit characters ([list ascii]): a Python 2
      [str], or Python 3 text within Latin-1, where [\d] and
      [re.IGNORECASE] act as they do on ASCII.  The file handle is the list
      of the lines its iterator yields, and iterating uses it up.
    - The two regular expressions are kept as syntax trees and run by a
      backtracking matcher with the order of choices of Python's [re]:
      greedy repetition, ordered alternation, leftmost start position.
    - The two dictionaries used as sets are [gmap]s from identifiers to
      [bool].
    - Writes to [sys.stderr] and [sys.stdout] are recorded as lists.
    - Comparing an [int] with [None] is [True] in Python 2 and raises
      [TypeError] in Python 3; the interpreter version is a parameter. *)

From Stdlib Require Import Ascii String ZArith DecimalString.
From stdpp Require Import gmap strings list fin_maps.

Local Open Scope Z_scope.

(** ** Strings *)

Abbreviation str := (list ascii).

Definition lit (s : string) : str := list_ascii_of_string s.

Definition newline : ascii := ascii_of_nat 10.

Definition in_range (lo hi a : ascii) : bool :=
  (nat_of_ascii lo <=? nat_of_ascii a)%nat && (nat_of_ascii a <=? nat_of_ascii hi)%nat.

Definition is_digit (a : ascii) : bool := in_range "0" "9" a.
Definition is_upper (a : ascii) : bool := in_range "A" "Z" a.
Definition is_lower (a : ascii) : bool := in_range "a" "z" a.

(** ASCII lower-casing, the folding [re.IGNORECASE] applies to 8-bit text. *)
Definition lower (a : ascii) : ascii :=
  if is_upper a then ascii_of_nat (nat_of_ascii a + 32) else a.

Definition upper (a : ascii) : ascii :=
  if is_lower a then ascii_of_nat (nat_of_ascii a - 32) else a.

(** ** Regular expressions *)

Module Re.

(** One-character matchers. *)
Inductive cset : Type :=
| CLit (c : ascii)                     (* a literal character *)
| CDigit                               (* \d *)
| CRanges (rs : list (ascii * ascii))  (* [a-b...] *)
| CAny.                                (* . : anything but a newline *)

(** Patterns; repetition is only ever applied to a one-character matcher
    in this program ([\d+], [[0-9A-Za-z]+], [.*]). *)
Inductive regex : Type :=
| Eps
| Chr (c : cset)
| Star (c : cset)
| Plus (c : cset)
| Seq (r1 r2 : regex)
| Alt (r1 r2 : regex)
| Group (r : regex).                   (* capturing group 1 *)

(** A run of literal characters. *)
Definition Str (s : string) : regex :=
  fold_right (fun c r => Seq (Chr (CLit c)) r) Eps (lit s).

(** A sequence of pieces. *)
Definition cat (rs : list regex) : regex := fold_right Seq Eps rs.

(** ['|'.join(rs)]: the alternation of the pieces, in order. *)
Definition join (rs : list regex) : regex :=
  match rs with
  | [] => Eps
  | r :: rs' => fold_left Alt rs' r
  end.

Section Matcher.

(** The [re.IGNORECASE] flag of the compiled pattern. *)
Variable ignorecase : bool.

Definition cmatch (c : cset) (a : ascii) : bool :=
  match c with
  | CLit x => if ignorecase then bool_decide (lower a = lower x)
              else bool_decide (a = x)
  | CDigit => is_digit a
  | CRanges rs =>
      existsb (fun r => in_range (fst r) (snd r) a
                        || (ignorecase && (in_range (fst r) (snd r) (lower a)
                                           || in_range (fst r) (snd r) (upper a)))) rs
  | CAny => negb (bool_decide (a = newline))
  end.

Section Run.

Context {A : Type}.

(** Greedy repetition of a one-character test: take as many
    characters as possible, give one back at a time when the rest of
    the pattern fails. *)
Fixpoint star (p : ascii -> bool) (s : str) (k : str -> option A) : option A :=
  match s with
  | a :: s' =>
      if p a then
        match star p s' k with
        | Some x => Some x
        | None => k s
        end
      else k s
  | [] => k s
  end.

(** [run r s g k]: match [r] at the front of [s]; [g] is the text
    captured so far by group 1, [k] continues with the rest of the
    line.  [None] asks the caller to backtrack. *)
Fixpoint run (r : regex) (s : str) (g : option str)
         (k : str -> option str -> option A) : option A :=
  match r with
  | Eps => k s g
  | Chr c =>
      match s with
      | a :: s' => if cmatch c a then k s' g else None
      | [] => None
      end
  | Star c => star (cmatch c) s (fun s' => k s' g)
  | Plus c =>
      match s with
      | a :: s' => if cmatch c a then star (cmatch c) s' (fun s'' => k s'' g) else None
      | [] => None
      end
  | Seq r1 r2 => run r1 s g (fun s' g' => run r2 s' g' k)
  | Alt r1 r2 =>
      match run r1 s g k with
      | Some x => Some x
      | None => run r2 s g k
      end
  | Group r1 =>
      run r1 s g (fun s' _ => k s' (Some (take (length s - length s') s)))
  end.
End Run.

(** A match object: what [group(1)] holds ([None] when the group took
    no part in the match). *)
Record match_object : Type := MatchObject { group1 : option str }.

(** [re.search]: the first start position, from the left, at which the
    pattern matches. *)
Fixpoint search (r : regex) (s : str) : option match_object :=
  match run r s None (fun _ g => Some (MatchObject g)) with
  | Some m => Some m
  | None =>
      match s with
      | [] => None
      | _ :: s' => search r s'
      end
  end.

(** The words of a pattern, declaratively. *)
Fixpoint lang (r : regex) (w : str) : Prop :=
  match r with
  | Eps => w = []
  | Chr c => exists a, w = [a] /\ cmatch c a = true
  | Star c => forallb (cmatch c) w = true
  | Plus c => w <> [] /\ forallb (cmatch c) w = true
  | Seq r1 r2 => exists w1 w2, w = w1 ++ w2 /\ lang r1 w1 /\ lang r2 w2
  | Alt r1 r2 => lang r1 w \/ lang r2 w
  | Group r1 => lang r1 w
  end.

Fixpoint has_group (r : regex) : bool :=
  match r with
  | Eps | Chr _ | Star _ | Plus _ => false
  | Seq r1 r2 | Alt r1 r2 => has_group r1 || has_group r2
  | Group _ => true
  end.

End Matcher.

End Re.

(** ** Python values the program relies on *)

Inductive pyver : Type := Py2 | Py3.

Inductive exn : Type := TypeError | KeyError | IOError.

Inductive result (A : Type) : Type :=
| Return (a : A)
| Raise (e : exn).
Arguments Return {A} a.
Arguments Raise {A} e.

(** An exception ends the computation; [x ← c; k] is stdpp's notation. *)
Global Instance result_bind : MBind result := fun A B f x =>
  match x with
  | Return a => f a
  | Raise e => Raise e
  end.

(** [n >= t] for an [int] [n] and a threshold that may be [None]. *)
Definition int_ge (py : pyver) (n : Z) (t : option Z) : result bool :=
  match t with
  | Some k => Return (k <=? n)
  | None =>
      match py with
      | Py2 => Return true
      | Py3 => Raise TypeError
      end
  end.

(** [not x] for an [int] option of [optparse]: [None] and [0] are falsy. *)
Definition py_not (x : option Z) : bool :=
  match x with
  | None => true
  | Some z => z =? 0
  end.

(** ["%d"] of a count. *)
Definition fmt_d (n : nat) : str := lit (NilEmpty.string_of_uint (Nat.to_uint n)).

(** [d[k]] on a dictionary. *)
Definition getitem {V : Type} (d : gmap Z V) (k : Z) : result V :=
  match d !! k with
  | Some v => Return v
  | None => Raise KeyError
  end.

(** ** The program *)

(** Nagios status codes *)
Definition OK : Z := 0.
Definition WARNING : Z := 1.
Definition CRITICAL : Z := 2.
Definition UNKNOWN : Z := 3.

Definition bounced_re : Re.regex :=
  Re.cat [ Re.Str " postfix/smtp[";
           Re.Plus Re.CDigit;
           Re.Str "]: ";
           Re.Group (Re.Plus (Re.CRanges [("0", "9"); ("A", "Z"); ("a", "z")]%char));
           Re.Str ": ";
           Re.Star Re.CAny;
           Re.Str ", status=";
           Re.Alt (Re.Str "bounced") (Re.Str "deferred");
           Re.Str " " ].

Definition site_rejection_regexes : list Re.regex :=
  [ Re.cat [Re.Str " said: 550 "; Re.Star Re.CAny; Re.Str "spam"];
    Re.cat [Re.Str " said: 550 "; Re.Star Re.CAny; Re.Str "blocked"];
    Re.cat [Re.Str " said: 451 "; Re.Star Re.CAny; Re.Str "busy"] ].

Definition site_rejection_re : Re.regex := Re.join site_rejection_regexes.

(** [re.search(bounced_re, line)] followed by [m.group(1)]. *)
Definition match_delivery_failure (line : str) : option str :=
  match Re.search false bounced_re line with
  | None => None
  | Some m => Re.group1 m
  end.

(** [re.search(site_rejection_re, line)], compiled with [re.IGNORECASE],
    used as a truth value. *)
Definition is_rejection (line : str) : bool :=
  match Re.search true site_rejection_re line with
  | None => false
  | Some _ => true
  end.

Module PostfixBounces.

Record t : Type := Build {
  fh : list str;
  warn : option Z;
  crit : option Z;
  debug : bool;
  processed : bool;
  blocked : gmap str bool;
  worrisome : gmap str bool;
  exit_code : option Z;
  exit_note : option str
}.

Definition __init__ (filehandle : list str) (warn crit : option Z) (debug : bool) : t :=
  {| fh := filehandle; warn := warn; crit := crit; debug := debug;
     processed := false; blocked := ∅; worrisome := ∅;
     exit_code := None; exit_note := None |}.

Definition set_blocked (self : t) (d : gmap str bool) : t :=
  {| fh := fh self; warn := warn self; crit := crit self; debug := debug self;
     processed := processed self; blocked := d; worrisome := worrisome self;
     exit_code := exit_code self; exit_note := exit_note self |}.

Definition set_worrisome (self : t) (d : gmap str bool) : t :=
  {| fh := fh self; warn := warn self; crit := crit self; debug := debug self;
     processed := processed self; blocked := blocked self; worrisome := d;
     exit_code := exit_code self; exit_note := exit_note self |}.

Definition set_exit_code (self : t) (c : Z) : t :=
  {| fh := fh self; warn := warn self; crit := crit self; debug := debug self;
     processed := processed self; blocked := blocked self; worrisome := worrisome self;
     exit_code := Some c; exit_note := exit_note self |}.

Definition set_exit_note (self : t) (n : str) : t :=
  {| fh := fh self; warn := warn self; crit := crit self; debug := debug self;
     processed := processed self; blocked := blocked self; worrisome := worrisome self;
     exit_code := exit_code self; exit_note := Some n |}.

(** The end of [process]: the file handle is exhausted and the flag set. *)
Definition set_processed (self : t) : t :=
  {| fh := []; warn := warn self; crit := crit self; debug := debug self;
     processed := true; blocked := blocked self; worrisome := worrisome self;
     exit_code := exit_code self; exit_note := exit_note self |}.

(** [sys.stderr.write(s)] when [self.debug]. *)
Definition trace (self : t) (err : list str) (s : str) : list str :=
  if debug self then err ++ [s] else err.

(** The body of the loop of [process]; [err] is what has been written to
    [sys.stderr]. *)
Definition process_line (st : t * list str) (line : str) : t * list str :=
  let '(self, err) := st in
  match match_delivery_failure line with
  | None => (self, err)
  | Some queue_id =>
      let self := set_blocked self (<[queue_id := true]> (blocked self)) in
      let err := trace self err (lit "blocked: " ++ line) in
      if negb (is_rejection line) then (self, err)
      else
        let self := set_worrisome self (<[queue_id := true]> (worrisome self)) in
        let err := trace self err (lit "worrisome: " ++ line) in
        (self, err)
  end.

Definition process (self : t) (err : list str) : t * list str :=
  let '(self, err) := fold_left process_line (fh self) (self, err) in
  (set_processed self, err).

Definition status_string : gmap Z str :=
  list_to_map [ (OK, lit "OK");
                (WARNING, lit "WARN");
                (CRITICAL, lit "CRITICAL");
                (UNKNOWN, lit "UNKNOWN") ].

Definition report (py : pyver) (self : t) : result t :=
  let blocked_count := size (blocked self) in
  let worrisome_count := size (worrisome self) in
  if negb (processed self) then
    let self := set_exit_code self UNKNOWN in
    s ← getitem status_string UNKNOWN;
    Return (set_exit_note self (s ++ lit " No mail log analysis to report on"))
  else
    c ← int_ge py (Z.of_nat worrisome_count) (crit self);
    code ← (if c : bool then Return CRITICAL
             else
               w ← int_ge py (Z.of_nat worrisome_count) (warn self);
               Return (if w : bool then WARNING else OK));
    let self := set_exit_code self code in
    s ← getitem status_string code;
    Return (set_exit_note self
              (s ++ lit " " ++ fmt_d worrisome_count ++ lit " worrisome | blocked="
                 ++ fmt_d blocked_count ++ lit " worrisome=" ++ fmt_d worrisome_count)).

End PostfixBounces.

(** The parsed command line: [--warn], [--crit], [--file], [--verbose]. *)
Record options : Type := Options {
  opt_warn : option Z;
  opt_crit : option Z;
  opt_file : str;
  opt_verbose : nat
}.

(** What a run of [main] does to the outside world, in order. *)
Inductive event : Type :=
| PrintHelp
| Open (path : str)
| Stderr (s : str)
| Stdout (s : str).

(** [print(x)]: the text of [x] and a newline. *)
Definition print (x : option str) : event :=
  Stdout (match x with Some s => s | None => lit "None" end ++ [newline]).

(** [main]; [fs] gives the lines of a readable file and [None] for a file
    that cannot be opened.  The result is the events and the value
    returned (or the exception raised). *)
Definition main (py : pyver) (fs : str -> option (list str)) (o : options)
  : list event * result (option Z) :=
  if py_not (opt_warn o) && py_not (opt_crit o) then
    ([PrintHelp], Return (Some UNKNOWN))
  else
    let debug := (2 <? opt_verbose o)%nat in
    match fs (opt_file o) with
    | None => ([Open (opt_file o)], Raise IOError)
    | Some fh =>
        let pb := PostfixBounces.__init__ fh (opt_warn o) (opt_crit o) debug in
        let '(pb, err) := PostfixBounces.process pb [] in
        let ev := Open (opt_file o) :: map Stderr err in
        match PostfixBounces.report py pb with
        | Raise e => (ev, Raise e)
        | Return pb => (ev ++ [print (PostfixBounces.exit_note pb)],
                        Return (PostfixBounces.exit_code pb))
        end
    end.

(** [sys.exit(main())]: the exit status of the process. *)
Definition exit_status (r : result (option Z)) : Z :=
  match r with
  | Return (Some n) => n
  | Return None => 0
  | Raise _ => 1
  end.

(** ** Vocabulary of the specification

    The predicates below say, in the words of the specification, what the
    two patterns are meant to recognise; the theorems compare them with
    the matcher run on the patterns of the source. *)

(** An identifier character. *)
Definition is_alnum (a : ascii) : bool := is_digit a || is_upper a || is_lower a.

(** Text that stays on one line. *)
Definition no_newline (s : str) : bool :=
  forallb (fun a => negb (bool_decide (a = newline))) s.

(** Text compared without regard to letter case. *)
Definition casefold (s : str) : str := map lower s.

(** A line as the iteration over a file yields it: a newline can only be
    its last character. *)
Definition file_line (line : str) : Prop := no_newline (removelast line) = true.

(** [t] occurs somewhere in [line]. *)
Definition contains (t line : str) : Prop := exists pre post, line = pre ++ t ++ post.

(** [contains], decided. *)
Fixpoint starts_with (t s : str) : bool :=
  match t, s with
  | [], _ => true
  | a :: t', b :: s' => bool_decide (a = b) && starts_with t' s'
  | _ :: _, [] => false
  end.

Fixpoint occurs (t s : str) : bool :=
  starts_with t s
  || match s with
     | [] => false
     | _ :: s' => occurs t s'
     end.

(** A line reporting a bounced or deferred delivery of the message [id]:
    the tag of the delivery agent with its process number, the identifier,
    and later a [status=] field holding [bounced] or [deferred].  [gap]
    constrains the text between the identifier and the field. *)
Definition delivery_failure_with (gap : str -> Prop) (line id : str) : Prop :=
  exists pre pid mid st post,
    line = pre ++ lit " postfix/smtp[" ++ pid ++ lit "]: " ++ id ++ lit ": "
               ++ mid ++ lit ", status=" ++ st ++ lit " " ++ post
    /\ pid <> [] /\ forallb is_digit pid = true
    /\ id <> [] /\ forallb is_alnum id = true
    /\ gap mid
    /\ (st = lit "bounced" \/ st = lit "deferred").

Definition delivery_failure : str -> str -> Prop :=
  delivery_failure_with (fun mid => no_newline mid = true).

Definition delivery_failure_anywhere : str -> str -> Prop :=
  delivery_failure_with (fun _ => True).

(** A rejection signature: the reply [said: <code> ] and, later, [word],
    in any letter case. *)
Definition signature_with (gap : str -> Prop) (code word : string) (line : str) : Prop :=
  exists pre a mid b post,
    line = pre ++ a ++ mid ++ b ++ post
    /\ casefold a = casefold (lit code)
    /\ gap mid
    /\ casefold b = casefold (lit word).

Definition rejection_with (gap : str -> Prop) (line : str) : Prop :=
  signature_with gap " said: 550 " "spam" line
  \/ signature_with gap " said: 550 " "blocked" line
  \/ signature_with gap " said: 451 " "busy" line.

Definition rejection : str -> Prop :=
  rejection_with (fun mid => no_newline mid = true).

Definition rejection_anywhere : str -> Prop :=
  rejection_with (fun _ => True).

(** What one line does to each dictionary. *)
Definition insert_blocked (m : gmap str bool) (line : str) : gmap str bool :=
  match match_delivery_failure line with
  | Some id => <[id := true]> m
  | None => m
  end.

Definition insert_worrisome (m : gmap str bool) (line : str) : gmap str bool :=
  match match_delivery_failure line with
  | Some id => if is_rejection line then <[id := true]> m else m
  | None => m
  end.

(** The identifiers of the qualifying lines, in order, with repetitions. *)
Definition blocked_ids (lines : list str) : list str :=
  omap match_delivery_failure lines.

Definition worrisome_ids (lines : list str) : list str :=
  omap (fun line => if is_rejection line then match_delivery_failure line else None) lines.

(** [d.keys()] and the number of times a key is listed. *)
Definition keys (d : gmap str bool) : list str := (map_to_list d).*1.

Definition occurrences (id : str) (l : list str) : nat :=
  length (filter (fun k => k = id) l).


(** What a caller can see of [report]. *)
Definition observed (r : result PostfixBounces.t)
  : result (gmap str bool * gmap str bool * option Z * option str) :=
  match r with
  | Return pb => Return (PostfixBounces.blocked pb, PostfixBounces.worrisome pb,
                         PostfixBounces.exit_code pb, PostfixBounces.exit_note pb)
  | Raise e => Raise e
  end.

(** The events of a run without the diagnostic ones. *)
Definition not_stderr (e : event) : bool :=
  match e with
  | Stderr _ => false
  | _ => true
  end.

Definition usage : list event * result (option Z) :=
  ([PrintHelp], Return (Some UNKNOWN)).

(** The note of a completed scan. *)
Definition note_of (level : str) (blocked_count worrisome_count : nat) : str :=
  level ++ lit " " ++ fmt_d worrisome_count ++ lit " worrisome | blocked="
        ++ fmt_d blocked_count ++ lit " worrisome=" ++ fmt_d worrisome_count.

(** ** Sample log lines *)

Definition line_spam : str :=
  lit "Mar 12 04:02:11 mx postfix/smtp[9978]: E491D4296: to=<a@mail.ru>, relay=mxs.mail.ru[94.100.180.31]:25, delay=5, dsn=5.0.0, status=bounced (host mxs.mail.ru[94.100.180.31] said: 550 spam message rejected (in reply to end of DATA command))"
  ++ [newline].

Definition line_busy : str :=
  lit "Mar 12 04:05:40 mx postfix/smtp[25122]: B60EA42D4: to=<b@hotmail.com>, relay=hotmail-com.olc.protection.outlook.com[104.47.42.33]:25, delay=0.77, dsn=4.7.500, status=deferred (host hotmail-com.olc.protection.outlook.com[104.47.42.33] said: 451 4.7.500 Server busy. Please try again later (in reply to RCPT TO command))"
  ++ [newline].

Definition line_retry : str :=
  lit "Mar 12 04:35:40 mx postfix/smtp[25301]: E491D4296: to=<a@mail.ru>, relay=mxs.mail.ru[94.100.180.31]:25, delay=1805, dsn=4.0.0, status=deferred (connect to mxs.mail.ru[94.100.180.31]:25: Connection timed out)"
  ++ [newline].

Definition line_sent : str :=
  lit "Mar 12 04:06:02 mx postfix/smtp[25122]: 7A31C42D9: to=<c@example.com>, relay=mx.example.com[192.0.2.7]:25, delay=0.4, dsn=2.0.0, status=sent (250 2.0.0 OK)"
  ++ [newline].

(** A delivered message ([status=sent]) whose server reply, quoted after
    the field, happens to hold the text [, status=bounced ]. *)
Definition line_sent_quoting_bounced : str :=
  lit "Mar 12 04:07:15 mx postfix/smtp[25122]: 9C0DE42E1: to=<d@example.com>, relay=mx.example.com[192.0.2.7]:25, delay=0.4, dsn=2.0.0, status=sent (250 2.0.0 OK accepted, status=bounced mail is never retried)"
  ++ [newline].

Definition maillog : str := lit "/var/log/maillog".

(** A file system holding the mail log only. *)
Definition only_maillog (lines : list str) (path : str) : option (list str) :=
  if bool_decide (path = maillog) then Some lines else None.

(** The aggregator after the scan of one rejected message, thresholds 1
    and 2. *)
Definition scan_spam : PostfixBounces.t :=
  (PostfixBounces.process
     (PostfixBounces.__init__ [line_spam] (Some 1) (Some 2) false) []).1.

(** ** Further vocabulary *)

(** The line reports a delivery failure. *)
Definition qualifies (line : str) : bool :=
  match match_delivery_failure line with
  | Some _ => true
  | None => false
  end.

(** What one line makes [process] write to [sys.stderr] when tracing. *)
Definition trace_of (line : str) : list str :=
  match match_delivery_failure line with
  | None => []
  | Some _ =>
      (lit "blocked: " ++ line)
        :: (if is_rejection line then [lit "worrisome: " ++ line] else [])
  end.

(** A fresh aggregator run over the lines [fh]: the aggregator afterwards
    and what was written to [sys.stderr]. *)
Definition scan (fh : list str) (warn crit : option Z) (debug : bool)
  : PostfixBounces.t * list str :=
  PostfixBounces.process (PostfixBounces.__init__ fh warn crit debug) [].

(** The event writes to [sys.stdout]: a [print], or the help text of
    [parser.print_help()]. *)
Definition is_stdout (e : event) : bool :=
  match e with
  | Stdout _ | PrintHelp => true
  | _ => false
  end.

Definition is_stderr (e : event) : bool :=
  match e with
  | Stderr _ => true
  | _ => false
  end.

(** An aggregator in the middle of its life: one identifier already
    blocked, one more line to read. *)
Definition resumed : PostfixBounces.t :=
  PostfixBounces.Build [line_busy] (Some 1) (Some 2) true false
    {[ lit "E491D4296" := true ]} ∅ None None.

(** The status for a worrisome count [n] under thresholds [w] and [c]. *)
Definition status_of (w c : Z) (n : nat) : Z :=
  if c <=? Z.of_nat n then CRITICAL
  else if w <=? Z.of_nat n then WARNING
  else OK.

(** The name [report] prints for a status. *)
Definition level_of (code : Z) : str :=
  default [] (PostfixBounces.status_string !! code).

(** At least one threshold is given and is not 0. *)
Definition threshold_given (o : options) : Prop :=
  exists x, x <> 0 /\ (opt_warn o = Some x \/ opt_crit o = Some x).

(** The numbers of distinct identifiers of the lines that report a
    delivery failure, and of those that also carry a rejection signature. *)
Definition blocked_count (lines : list str) : nat :=
  size (list_to_set (blocked_ids lines) : gset str).

Definition worrisome_count (lines : list str) : nat :=
  size (list_to_set (worrisome_ids lines) : gset str).

(** Sample command lines. *)
Definition opts_both : options := Options (Some 1) (Some 2) maillog 3.

Definition opts_warn_only : options := Options (Some 1) None maillog 0.

Definition opts_elsewhere : options := Options (Some 1) (Some 2) (lit "/var/log/mail.log") 0.

(** ** Words

    [w] occurs in [s] as a word: not inside a longer run of letters and
    digits.  [boundary] says that the character before is not one. *)
Fixpoint occurs_word_from (boundary : bool) (w s : str) : bool :=
  (boundary && starts_with w s
   && negb (match drop (length w) s with
            | a :: _ => is_alnum a
            | [] => false
            end))
  || match s with
     | [] => false
     | a :: s' => occurs_word_from (negb (is_alnum a)) w s'
     end.

Definition occurs_word (w s : str) : bool := occurs_word_from true w s.

(** A bounce whose reply starts [550-], the form of a reply of several
    lines, and names spam. *)
Definition line_550_dash_spam : str :=
  lit "Mar 12 04:09:31 mx postfix/smtp[25122]: 3F2A142E7: to=<e@example.org>, relay=mx.example.org[192.0.2.9]:25, delay=0.6, dsn=5.7.1, status=bounced (host mx.example.org[192.0.2.9] said: 550-5.7.1 This message was classified as spam and is refused (in reply to end of DATA command))"
  ++ [newline].

(** A bounce whose reply code is 550 and whose text holds [unblocked]. *)
Definition line_unblocked : str :=
  lit "Mar 12 04:11:02 mx postfix/smtp[25122]: 5D1B042F0: to=<f@example.org>, relay=mx.example.org[192.0.2.9]:25, delay=0.5, dsn=5.2.1, status=bounced (host mx.example.org[192.0.2.9] said: 550 5.2.1 mailbox was unblocked too late, message expired (in reply to RCPT TO command))"
  ++ [newline].
(** * The matcher against the words of a pattern *)

Section ReFacts.

Variable ic : bool.

Lemma star_sound {A} (p : ascii -> bool) (s : str) (k : str -> option A) x :
  Re.star p s k = Some x ->
  exists w s', s = w ++ s' /\ forallb p w = true /\ k s' = Some x.
Proof.
  induction s as [|a s IH]; simpl; intros H.
  - exists [], []. auto.
  - destruct (p a) eqn:Hp.
    + destruct (Re.star p s k) as [y|] eqn:Hs.
      * inversion H; subst y. destruct (IH eq_refl) as (w & s' & -> & Hw & Hk).
        exists (a :: w), s'. simpl. rewrite Hp, Hw. auto.
      * exists [], (a :: s). auto.
    + exists [], (a :: s). auto.
Qed.

Lemma star_complete {A} (p : ascii -> bool) (w s' : str) (k : str -> option A) :
  forallb p w = true -> is_Some (k s') -> is_Some (Re.star p (w ++ s') k).
Proof.
  intros Hw Hk. induction w as [|a w IH]; simpl in *.
  - destruct s' as [|b s'']; simpl; [exact Hk|].
    destruct (p b); [|exact Hk].
    destruct (Re.star p s'' k); [eauto | exact Hk].
  - apply andb_prop in Hw as [Ha Hw]. rewrite Ha.
    destruct (IH Hw) as [y ->]. eauto.
Qed.

Lemma run_sound {A} (r : Re.regex) :
  forall (s : str) (g : option str) (k : str -> option str -> option A) x,
    Re.run ic r s g k = Some x ->
    exists w s' g', s = w ++ s' /\ Re.lang ic r w /\ k s' g' = Some x
                    /\ (Re.has_group r = false -> g' = g).
Proof.
  induction r as [|c|c|c|r1 IH1 r2 IH2|r1 IH1 r2 IH2|r1 IH1]; simpl; intros s g k x H.
  - exists [], s, g. auto.
  - destruct s as [|a s]; [discriminate|].
    destruct (Re.cmatch ic c a) eqn:Hc; [|discriminate].
    exists [a], s, g. eauto 6.
  - apply star_sound in H as (w & s' & -> & Hw & Hk). exists w, s', g. auto.
  - destruct s as [|a s]; [discriminate|].
    destruct (Re.cmatch ic c a) eqn:Hc; [|discriminate].
    apply star_sound in H as (w & s' & -> & Hw & Hk).
    exists (a :: w), s', g. simpl. rewrite Hc, Hw. auto.
  - apply IH1 in H as (w1 & s1 & g1 & -> & L1 & H & G1).
    apply IH2 in H as (w2 & s2 & g2 & -> & L2 & H & G2).
    exists (w1 ++ w2), s2, g2. rewrite <- app_assoc.
    repeat split; eauto.
    intros Hg. apply orb_false_elim in Hg as [Ha Hb].
    rewrite (G2 Hb). auto.
  - destruct (Re.run ic r1 s g k) as [y|] eqn:H1.
    + inversion H; subst y.
      apply IH1 in H1 as (w & s' & g' & -> & L & Hk & G).
      exists w, s', g'. repeat split; auto.
      intros Hg. apply orb_false_elim in Hg as [Ha _]. auto.
    + apply IH2 in H as (w & s' & g' & -> & L & Hk & G).
      exists w, s', g'. repeat split; auto.
      intros Hg. apply orb_false_elim in Hg as [_ Hb]. auto.
  - apply IH1 in H as (w & s' & g' & -> & L & Hk & G).
    exists w, s', (Some (take (length (w ++ s') - length s') (w ++ s'))).
    split; [reflexivity|]. split; [exact L|]. split; [exact Hk|]. discriminate.
Qed.

Lemma run_complete {A} (r : Re.regex) :
  forall (w s' : str) (g : option str) (k : str -> option str -> option A),
    Re.lang ic r w -> (forall g', is_Some (k s' g')) ->
    is_Some (Re.run ic r (w ++ s') g k).
Proof.
  induction r as [|c|c|c|r1 IH1 r2 IH2|r1 IH1 r2 IH2|r1 IH1]; simpl; intros w s' g k L Hk.
  - subst w. apply Hk.
  - destruct L as (a & -> & Hc). simpl. rewrite Hc. apply Hk.
  - apply star_complete; auto.
  - destruct L as [Hne Hw]. destruct w as [|a w]; [congruence|].
    simpl in *. apply andb_prop in Hw as [Ha Hw]. rewrite Ha.
    apply star_complete; auto.
  - destruct L as (w1 & w2 & -> & L1 & L2). rewrite <- app_assoc.
    apply IH1; auto.
  - destruct L as [L|L].
    + destruct (IH1 w s' g k L Hk) as [y ->]. eauto.
    + destruct (Re.run ic r1 (w ++ s') g k); eauto.
  - apply IH1; auto.
Qed.

(** The text of group 1 when the group is a piece of a sequence. *)
Lemma run_group_sound {A} (r1 r2 : Re.regex) (s : str) g
      (k : str -> option str -> option A) x :
  Re.run ic (Re.Seq (Re.Group r1) r2) s g k = Some x ->
  exists w s', s = w ++ s' /\ Re.lang ic r1 w /\ Re.run ic r2 s' (Some w) k = Some x.
Proof.
  simpl. intros H. apply run_sound in H as (w & s' & g' & -> & L & H & _).
  exists w, s'. repeat split; auto.
  rewrite length_app, Nat.add_sub, take_app_length in H. exact H.
Qed.

Lemma search_sound (r : Re.regex) (s : str) m :
  Re.search ic r s = Some m ->
  exists pre s', s = pre ++ s'
    /\ Re.run ic r s' None (fun _ g => Some (Re.MatchObject g)) = Some m.
Proof.
  induction s as [|a s IH]; simpl.
  - destruct (Re.run ic r [] None _) eqn:H; [|discriminate].
    intros [= <-]. exists [], []. auto.
  - destruct (Re.run ic r (a :: s) None _) eqn:H.
    + intros [= <-]. exists [], (a :: s). auto.
    + intros H'. destruct (IH H') as (pre & s' & -> & Hr).
      exists (a :: pre), s'. auto.
Qed.

Lemma search_words (r : Re.regex) (s : str) m :
  Re.search ic r s = Some m ->
  exists pre w post, s = pre ++ w ++ post /\ Re.lang ic r w.
Proof.
  intros H. apply search_sound in H as (pre & s' & -> & H).
  apply run_sound in H as (w & post & g' & -> & L & _).
  eauto.
Qed.

Lemma search_complete (r : Re.regex) (pre w post : str) :
  Re.lang ic r w -> is_Some (Re.search ic r (pre ++ w ++ post)).
Proof.
  intros L.
  assert (H0 : is_Some (Re.run ic r (w ++ post) None
                          (fun _ g => Some (Re.MatchObject g)))).
  { apply run_complete; eauto. }
  induction pre as [|a pre IH]; simpl.
  - destruct H0 as [y Hy]. destruct (w ++ post); simpl; rewrite Hy; eauto.
  - destruct (Re.run ic r (a :: pre ++ w ++ post) None _); eauto.
Qed.

End ReFacts.

(** * The two patterns of the program *)

Section PatternFacts.

Lemma lang_Str ic (t : string) (w : str) :
  Re.lang ic (Re.Str t) w <->
  (if ic then casefold w = casefold (lit t) else w = lit t).
Proof.
  unfold Re.Str. generalize (lit t) as l. intros l. revert w.
  induction l as [|c l IH]; intros w; simpl.
  - destruct ic; [|tauto]. split; [intros ->; reflexivity|].
    destruct w; [reflexivity|discriminate].
  - split.
    + intros (w1 & w2 & -> & (a & -> & Ha) & L). apply IH in L.
      destruct ic; simpl in *.
      * apply bool_decide_eq_true in Ha. rewrite Ha. f_equal. exact L.
      * apply bool_decide_eq_true in Ha. subst. reflexivity.
    + intros H. destruct w as [|a w].
      { destruct ic; discriminate. }
      exists [a], w. split; [reflexivity|]. split.
      * exists a. split; [reflexivity|].
        destruct ic; simpl in *; apply bool_decide_eq_true; congruence.
      * apply IH. destruct ic; simpl in *; congruence.
Qed.

Lemma has_group_Str (t : string) : Re.has_group (Re.Str t) = false.
Proof.
  unfold Re.Str. induction (lit t) as [|c l IH]; simpl; auto.
Qed.

Lemma run_seq_sound {A} ic (r1 r2 : Re.regex) (s : str) g
      (k : str -> option str -> option A) x :
  Re.has_group r1 = false ->
  Re.run ic (Re.Seq r1 r2) s g k = Some x ->
  exists w s', s = w ++ s' /\ Re.lang ic r1 w /\ Re.run ic r2 s' g k = Some x.
Proof.
  simpl. intros Hg H. apply run_sound in H as (w & s' & g' & -> & L & H & G).
  rewrite (G Hg) in H. eauto.
Qed.

Lemma cmatch_alnum a :
  Re.cmatch false (Re.CRanges [("0", "9"); ("A", "Z"); ("a", "z")]%char) a = is_alnum a.
Proof.
  unfold is_alnum, is_digit, is_upper, is_lower. simpl.
  rewrite !orb_false_r. rewrite orb_assoc. reflexivity.
Qed.

Lemma forallb_alnum w :
  forallb (Re.cmatch false (Re.CRanges [("0", "9"); ("A", "Z"); ("a", "z")]%char)) w
  = forallb is_alnum w.
Proof. induction w as [|a w IH]; simpl in *; [reflexivity|]. rewrite IH.
       f_equal. apply (cmatch_alnum a). Qed.

Lemma bounced_re_words (w : str) :
  Re.lang false bounced_re w <->
  exists pid id mid st,
    w = lit " postfix/smtp[" ++ pid ++ lit "]: " ++ id ++ lit ": "
          ++ mid ++ lit ", status=" ++ st ++ lit " "
    /\ pid <> [] /\ forallb is_digit pid = true
    /\ id <> [] /\ forallb is_alnum id = true
    /\ no_newline mid = true
    /\ (st = lit "bounced" \/ st = lit "deferred").
Proof.
  unfold bounced_re, Re.cat. cbn [fold_right Re.lang].
  setoid_rewrite lang_Str. setoid_rewrite forallb_alnum.
  split.
  - intros (w1 & r1 & -> & -> & pid & r2 & -> & [Hp1 Hp2] & w3 & r3 & -> & ->
            & id & r4 & -> & [Hi1 Hi2] & w5 & r5 & -> & -> & mid & r6 & -> & Hm
            & w7 & r7 & -> & -> & st & r8 & -> & Hst & w9 & r9 & -> & -> & ->).
    exists pid, id, mid, st. rewrite app_nil_r. repeat split; auto.
  - intros (pid & id & mid & st & -> & Hp1 & Hp2 & Hi1 & Hi2 & Hm & Hst).
    repeat (eexists _, _; split; [reflexivity|]; split; [first [reflexivity|split; eassumption|eassumption]|]).
    exists (lit " "), []. rewrite app_nil_r. auto.
Qed.

End PatternFacts.

Section SearchFacts.

Lemma bounced_search_sound (line : str) m :
  Re.search false bounced_re line = Some m ->
  exists id, Re.group1 m = Some id /\ delivery_failure line id.
Proof.
  intros H. apply search_sound in H as (pre & s0 & -> & H).
  unfold bounced_re, Re.cat in H. cbn [fold_right] in H.
  apply run_seq_sound in H as (w1 & s1 & -> & L1 & H); [|apply has_group_Str].
  apply run_seq_sound in H as (pid & s2 & -> & L2 & H); [|reflexivity].
  apply run_seq_sound in H as (w3 & s3 & -> & L3 & H); [|apply has_group_Str].
  apply run_group_sound in H as (id & s4 & -> & L4 & H).
  apply run_sound in H as (w5 & post & g' & -> & L5 & H & G).
  rewrite G in H by reflexivity. injection H as <-.
  exists id. split; [reflexivity|].
  apply lang_Str in L1, L3. subst w1 w3.
  destruct L2 as [Hp1 Hp2]. destruct L4 as [Hi1 Hi2].
  rewrite forallb_alnum in Hi2.
  cbn [Re.lang] in L5.
  destruct L5 as (w6 & r6 & -> & L6 & mid & r7 & -> & Hm & w8 & r8 & -> & L8
                  & st & r9 & -> & Hst & w10 & r10 & -> & L10 & ->).
  apply lang_Str in L6, L8, L10. subst w6 w8 w10.
  rewrite !lang_Str in Hst.
  exists pre, pid, mid, st, post.
  rewrite app_nil_r, <- !app_assoc. repeat split; auto.
Qed.

Lemma bounced_search_complete (line id : str) :
  delivery_failure line id -> is_Some (Re.search false bounced_re line).
Proof.
  intros (pre & pid & mid & st & post & -> & Hp1 & Hp2 & Hi1 & Hi2 & Hm & Hst).
  replace (pre ++ lit " postfix/smtp[" ++ pid ++ lit "]: " ++ id ++ lit ": "
               ++ mid ++ lit ", status=" ++ st ++ lit " " ++ post)
    with (pre ++ (lit " postfix/smtp[" ++ pid ++ lit "]: " ++ id ++ lit ": "
               ++ mid ++ lit ", status=" ++ st ++ lit " ") ++ post)
    by (rewrite <- !app_assoc; reflexivity).
  apply search_complete. apply bounced_re_words.
  exists pid, id, mid, st. auto 10.
Qed.

Lemma match_delivery_failure_sound (line id : str) :
  match_delivery_failure line = Some id -> delivery_failure line id.
Proof.
  unfold match_delivery_failure.
  destruct (Re.search false bounced_re line) as [m|] eqn:H; [|discriminate].
  apply bounced_search_sound in H as (id' & -> & D). intros [= <-]. exact D.
Qed.

Lemma match_delivery_failure_complete (line id : str) :
  delivery_failure line id -> is_Some (match_delivery_failure line).
Proof.
  intros D. apply bounced_search_complete in D as [m Hm].
  unfold match_delivery_failure. rewrite Hm.
  apply bounced_search_sound in Hm as (id' & -> & _). eauto.
Qed.

Lemma site_rejection_re_words (w : str) :
  Re.lang true site_rejection_re w <->
  exists a mid b,
    w = a ++ mid ++ b /\ no_newline mid = true
    /\ ((casefold a = casefold (lit " said: 550 ") /\ casefold b = casefold (lit "spam"))
        \/ (casefold a = casefold (lit " said: 550 ") /\ casefold b = casefold (lit "blocked"))
        \/ (casefold a = casefold (lit " said: 451 ") /\ casefold b = casefold (lit "busy"))).
Proof.
  unfold site_rejection_re, site_rejection_regexes, Re.join, Re.cat.
  cbn [fold_left fold_right Re.lang].
  setoid_rewrite lang_Str.
  split.
  - intros [[H|H]|H];
      destruct H as (a & r1 & -> & Ha & mid & r2 & -> & Hm & b & r3 & -> & Hb & ->);
      exists a, mid, b; rewrite app_nil_r; (split; [reflexivity|]); (split; [exact Hm|]);
      auto.
  - intros (a & mid & b & -> & Hm & [[Ha Hb]|[[Ha Hb]|[Ha Hb]]]);
      [left; left|left; right|right];
      (exists a, (mid ++ b ++ []); split; [rewrite app_nil_r; reflexivity|];
       split; [exact Ha|];
       exists mid, (b ++ []); split; [reflexivity|]; split; [exact Hm|];
       exists b, []; auto).
Qed.

Lemma is_rejection_spec (line : str) :
  is_rejection line = true <-> rejection line.
Proof.
  unfold is_rejection. split.
  - destruct (Re.search true site_rejection_re line) as [m|] eqn:H; [|discriminate].
    intros _. apply search_words in H as (pre & w & post & -> & L).
    apply site_rejection_re_words in L as (a & mid & b & -> & Hm & H).
    unfold rejection, rejection_with, signature_with.
    destruct H as [[Ha Hb]|[[Ha Hb]|[Ha Hb]]]; [left|right;left|right;right];
      exists pre, a, mid, b, post; rewrite <- !app_assoc; auto.
  - intros R.
    assert (H : exists pre w post, line = pre ++ w ++ post
                                   /\ Re.lang true site_rejection_re w).
    { destruct R as [R|[R|R]];
        destruct R as (pre & a & mid & b & post & -> & Ha & Hm & Hb);
        exists pre, (a ++ mid ++ b), post;
        (split; [rewrite <- !app_assoc; reflexivity|]);
        apply site_rejection_re_words; exists a, mid, b; auto 10. }
    destruct H as (pre & w & post & -> & L).
    destruct (search_complete true _ pre w post L) as [m ->]. reflexivity.
Qed.

Lemma no_newline_app (s1 s2 : str) :
  no_newline (s1 ++ s2) = no_newline s1 && no_newline s2.
Proof. apply forallb_app. Qed.

(** In a line of a file, text that is followed by something holds no
    newline. *)
Lemma file_line_gap (pre mid post : str) :
  file_line (pre ++ mid ++ post) -> post <> [] -> no_newline mid = true.
Proof.
  unfold file_line. intros H Hpost.
  rewrite removelast_app in H by (destruct mid; [exact Hpost|discriminate]).
  rewrite removelast_app in H by exact Hpost.
  rewrite !no_newline_app in H.
  apply andb_prop in H as [_ H]. apply andb_prop in H as [H _]. exact H.
Qed.

Lemma casefold_nonempty (b : str) (word : string) :
  casefold b = casefold (lit word) -> lit word <> [] -> b <> [].
Proof. intros H Hw ->. destruct (lit word); [congruence|discriminate]. Qed.

Lemma delivery_failure_file_line (line id : str) :
  file_line line -> delivery_failure_anywhere line id -> delivery_failure line id.
Proof.
  intros F (pre & pid & mid & st & post & -> & Hp1 & Hp2 & Hi1 & Hi2 & _ & Hst).
  exists pre, pid, mid, st, post. repeat split; auto.
  rewrite 5!app_assoc in F. apply file_line_gap in F; [exact F|discriminate].
Qed.

Lemma delivery_failure_anywhere_intro (line id : str) :
  delivery_failure line id -> delivery_failure_anywhere line id.
Proof.
  intros (pre & pid & mid & st & post & -> & Hp1 & Hp2 & Hi1 & Hi2 & _ & Hst).
  exists pre, pid, mid, st, post. repeat split; auto.
Qed.

Lemma signature_file_line (code word : string) (line : str) :
  lit word <> [] -> file_line line ->
  signature_with (fun _ => True) code word line ->
  signature_with (fun mid => no_newline mid = true) code word line.
Proof.
  intros Hw F (pre & a & mid & b & post & -> & Ha & _ & Hb).
  exists pre, a, mid, b, post. repeat split; auto.
  rewrite (app_assoc pre a) in F. apply file_line_gap in F; [exact F|].
  apply casefold_nonempty in Hb; [|exact Hw]. destruct b; [congruence|discriminate].
Qed.

Lemma signature_anywhere_intro (code word : string) (line : str) :
  signature_with (fun mid => no_newline mid = true) code word line ->
  signature_with (fun _ => True) code word line.
Proof.
  intros (pre & a & mid & b & post & -> & Ha & _ & Hb).
  exists pre, a, mid, b, post. repeat split; auto.
Qed.

Lemma rejection_file_line (line : str) :
  file_line line -> (rejection line <-> rejection_anywhere line).
Proof.
  intros F. unfold rejection, rejection_anywhere, rejection_with. split.
  - intros [H|[H|H]]; apply signature_anywhere_intro in H; auto.
  - intros [H|[H|H]]; apply signature_file_line in H; auto; discriminate.
Qed.

Lemma starts_with_spec (t s : str) :
  starts_with t s = true <-> exists post, s = t ++ post.
Proof.
  revert s. induction t as [|a t IH]; intros s; simpl.
  - split; eauto.
  - destruct s as [|b s]; [split; [discriminate|intros [post H]; discriminate]|].
    rewrite andb_true_iff, bool_decide_eq_true, IH. split.
    + intros [-> [post ->]]. eauto.
    + intros [post [= -> ->]]. eauto.
Qed.

Lemma occurs_spec (t s : str) : occurs t s = true <-> contains t s.
Proof.
  unfold contains. induction s as [|b s IH]; simpl.
  - rewrite orb_false_r, starts_with_spec. split.
    + intros [post H]. exists [], post. exact H.
    + intros (pre & post & H). destruct pre; [eauto|discriminate].
  - rewrite orb_true_iff, starts_with_spec, IH. split.
    + intros [[post H]|(pre & post & ->)]; [exists [], post; exact H|].
      exists (b :: pre), post. reflexivity.
    + intros (pre & post & H). destruct pre as [|c pre]; [left; eauto|].
      right. injection H as -> ->. eauto.
Qed.

(** ["%d"] writes the count in decimal. *)
Lemma fmt_d_decimal (n : nat) :
  NilEmpty.uint_of_string (string_of_list_ascii (fmt_d n)) = Some (Nat.to_uint n).
Proof.
  unfold fmt_d, lit. rewrite string_of_list_ascii_of_string. apply NilEmpty.usu.
Qed.

End SearchFacts.

Section ProcessFacts.
Import PostfixBounces.

Lemma process_line_fields self err line :
  let self' := (process_line (self, err) line).1 in
  warn self' = warn self /\ crit self' = crit self /\ debug self' = debug self
  /\ processed self' = processed self
  /\ exit_code self' = exit_code self /\ exit_note self' = exit_note self
  /\ blocked self' = insert_blocked (blocked self) line
  /\ worrisome self' = insert_worrisome (worrisome self) line.
Proof.
  unfold process_line, insert_blocked, insert_worrisome.
  destruct (match_delivery_failure line) as [id|]; simpl; [|tauto].
  destruct (is_rejection line); simpl; tauto.
Qed.

Lemma fold_process_line_fields lines : forall st,
  let self := st.1 in
  let self' := (fold_left process_line lines st).1 in
  warn self' = warn self /\ crit self' = crit self /\ debug self' = debug self
  /\ processed self' = processed self
  /\ exit_code self' = exit_code self /\ exit_note self' = exit_note self
  /\ blocked self' = fold_left insert_blocked lines (blocked self)
  /\ worrisome self' = fold_left insert_worrisome lines (worrisome self).
Proof.
  induction lines as [|line lines IH]; intros [self err]; [simpl; tauto|].
  specialize (IH (process_line (self, err) line)).
  pose proof (process_line_fields self err line) as H.
  cbv zeta in *. cbn [fold_left fst] in *.
  destruct IH as (I1 & I2 & I3 & I4 & I5 & I6 & I7 & I8).
  destruct H as (H1 & H2 & H3 & H4 & H5 & H6 & H7 & H8).
  rewrite I1, I2, I3, I4, I5, I6, I7, I8, H1, H2, H3, H4, H5, H6, H7, H8.
  tauto.
Qed.

Lemma process_fields self err :
  let self' := (process self err).1 in
  warn self' = warn self /\ crit self' = crit self /\ debug self' = debug self
  /\ processed self' = true
  /\ exit_code self' = exit_code self /\ exit_note self' = exit_note self
  /\ blocked self' = fold_left insert_blocked (fh self) (blocked self)
  /\ worrisome self' = fold_left insert_worrisome (fh self) (worrisome self).
Proof.
  unfold process.
  pose proof (fold_process_line_fields (fh self) (self, err)) as H. simpl in H.
  destruct (fold_left process_line (fh self) (self, err)) as [self' err'].
  simpl in *. tauto.
Qed.

Lemma lookup_fold_insert_blocked lines : forall (m : gmap str bool) (k : str),
  fold_left insert_blocked lines m !! k
  = if decide (k ∈ blocked_ids lines) then Some true else m !! k.
Proof.
  unfold blocked_ids.
  induction lines as [|line lines IH]; intros m k; simpl.
  - reflexivity.
  - rewrite IH. unfold insert_blocked.
    destruct (match_delivery_failure line) as [id|]; simpl; [|reflexivity].
    destruct (decide (k = id)) as [->|Hne].
    + rewrite lookup_insert_eq. rewrite (decide_True (Some true) _ (P := id ∈ id :: _)) by left.
      destruct (decide _); reflexivity.
    + rewrite lookup_insert_ne by congruence.
      apply decide_ext. rewrite elem_of_cons. tauto.
Qed.

Lemma lookup_fold_insert_worrisome lines : forall (m : gmap str bool) (k : str),
  fold_left insert_worrisome lines m !! k
  = if decide (k ∈ worrisome_ids lines) then Some true else m !! k.
Proof.
  unfold worrisome_ids.
  induction lines as [|line lines IH]; intros m k; simpl.
  - reflexivity.
  - rewrite IH. unfold insert_worrisome.
    destruct (is_rejection line), (match_delivery_failure line) as [id|]; simpl;
      try reflexivity.
    destruct (decide (k = id)) as [->|Hne].
    + rewrite lookup_insert_eq. rewrite (decide_True (Some true) _ (P := id ∈ id :: _)) by left.
      destruct (decide _); reflexivity.
    + rewrite lookup_insert_ne by congruence.
      apply decide_ext. rewrite elem_of_cons. tauto.
Qed.

Lemma worrisome_ids_blocked lines k :
  k ∈ worrisome_ids lines -> k ∈ blocked_ids lines.
Proof.
  unfold worrisome_ids, blocked_ids. rewrite !list_elem_of_omap.
  intros (line & Hin & H). exists line. split; [exact Hin|].
  destruct (is_rejection line); [exact H|discriminate].
Qed.

Lemma occurrences_NoDup_le (id : str) (l : list str) :
  NoDup l -> (occurrences id l <= 1)%nat.
Proof.
  unfold occurrences. induction 1 as [|x l Hx Hl IH]; simpl; [lia|].
  rewrite filter_cons. case_decide as E; simpl; [|exact IH].
  subst x. destruct (filter (fun k => k = id) l) as [|y t] eqn:F; [simpl; lia|].
  exfalso. assert (y ∈ filter (fun k => k = id) l) as Hy by (rewrite F; left).
  apply list_elem_of_filter in Hy as [-> Hy]. exact (Hx Hy).
Qed.

Lemma occurrences_NoDup_in (id : str) (l : list str) :
  NoDup l -> id ∈ l -> occurrences id l = 1%nat.
Proof.
  intros Hl Hin. pose proof (occurrences_NoDup_le id l Hl) as Hle.
  unfold occurrences in *.
  assert (id ∈ filter (fun k => k = id) l) as Hf by (apply list_elem_of_filter; auto).
  destruct (filter (fun k => k = id) l); [inversion Hf|simpl in *; lia].
Qed.

Lemma elem_of_keys (d : gmap str bool) (id : str) :
  id ∈ keys d <-> is_Some (d !! id).
Proof.
  unfold keys. rewrite list_elem_of_fmap. split.
  - intros ([k v] & -> & H). apply elem_of_map_to_list in H. simpl. eauto.
  - intros [v H]. exists (id, v). split; [reflexivity|]. apply elem_of_map_to_list, H.
Qed.

Lemma length_keys (d : gmap str bool) : length (keys d) = size d.
Proof. unfold keys. rewrite length_fmap. apply length_map_to_list. Qed.

End ProcessFacts.

Section Claims.
Import PostfixBounces.

Lemma process_init_blocked fh w c d err (k : str) :
  blocked (process (__init__ fh w c d) err).1 !! k
  = if decide (k ∈ blocked_ids fh) then Some true else None.
Proof.
  destruct (process_fields (__init__ fh w c d) err) as (_ & _ & _ & _ & _ & _ & -> & _).
  simpl. rewrite lookup_fold_insert_blocked. case_decide; [reflexivity|apply lookup_empty].
Qed.

Lemma process_init_worrisome fh w c d err (k : str) :
  worrisome (process (__init__ fh w c d) err).1 !! k
  = if decide (k ∈ worrisome_ids fh) then Some true else None.
Proof.
  destruct (process_fields (__init__ fh w c d) err) as (_ & _ & _ & _ & _ & _ & _ & ->).
  simpl. rewrite lookup_fold_insert_worrisome. case_decide; [reflexivity|apply lookup_empty].
Qed.

Lemma process_init_dom_blocked fh w c d err :
  dom (blocked (process (__init__ fh w c d) err).1) = list_to_set (blocked_ids fh).
Proof.
  apply set_eq. intros k. rewrite elem_of_dom, process_init_blocked, elem_of_list_to_set.
  destruct (decide _) as [Hk|Hk]; split; intros H'; try done; eauto.
Qed.

Lemma process_init_dom_worrisome fh w c d err :
  dom (worrisome (process (__init__ fh w c d) err).1) = list_to_set (worrisome_ids fh).
Proof.
  apply set_eq. intros k. rewrite elem_of_dom, process_init_worrisome, elem_of_list_to_set.
  destruct (decide _) as [Hk|Hk]; split; intros H'; try done; eauto.
Qed.

(** C1. After [process], the worrisome identifiers are among the blocked
    ones, so there are at most as many; and a line that inserts an
    identifier into the worrisome dictionary has inserted the same
    identifier into the blocked dictionary. *)
Theorem C1_worrisome_subset_blocked (fh : list str) warn crit debug err :
  let pb := (process (__init__ fh warn crit debug) err).1 in
  dom (worrisome pb) ⊆ dom (blocked pb)
  /\ (size (worrisome pb) <= size (blocked pb))%nat
  /\ (forall self e line,
        let self' := (process_line (self, e) line).1 in
        worrisome self' = worrisome self
        \/ exists id, match_delivery_failure line = Some id
                      /\ worrisome self' = <[id := true]> (worrisome self)
                      /\ blocked self' = <[id := true]> (blocked self)).
Proof.
  intros pb.
  assert (S : dom (worrisome pb) ⊆ dom (blocked pb)).
  { subst pb. rewrite process_init_dom_blocked, process_init_dom_worrisome.
    intros k. rewrite !elem_of_list_to_set. apply worrisome_ids_blocked. }
  split; [exact S|]. split.
  - rewrite <- (size_dom (worrisome pb)), <- (size_dom (blocked pb)).
    apply subseteq_size, S.
  - intros self e line self'.
    destruct (process_line_fields self e line) as (_ & _ & _ & _ & _ & _ & Hb & Hw).
    fold self' in Hb, Hw. rewrite Hb, Hw. unfold insert_blocked, insert_worrisome.
    destruct (match_delivery_failure line) as [id|]; [|left; reflexivity].
    destruct (is_rejection line); [right; eauto|left; reflexivity].
Qed.

Lemma elem_of_with_repeat (fh1 fh2 fh3 : list str) (l1 l2 x : str) :
  x ∈ fh1 ++ l1 :: fh2 ++ l2 :: fh3 <-> x = l2 \/ x ∈ fh1 ++ l1 :: fh2 ++ fh3.
Proof.
  rewrite !elem_of_app, !elem_of_cons, !elem_of_app, !elem_of_cons. tauto.
Qed.

Lemma elem_of_first_copy (fh1 fh2 : list str) (l1 : str) :
  l1 ∈ fh1 ++ l1 :: fh2.
Proof. rewrite elem_of_app, elem_of_cons. auto. Qed.

(** C5. An identifier carried by two qualifying lines is one key of the
    blocked dictionary and at most one key of the worrisome dictionary; the
    counts are the numbers of distinct identifiers, and the second line
    leaves the blocked dictionary (and, when the first line was a
    rejection, the worrisome one) as it is without it. *)
Theorem C5_identifier_counted_once (fh1 fh2 fh3 : list str) (l1 l2 id : str)
        warn crit debug err :
  match_delivery_failure l1 = Some id ->
  match_delivery_failure l2 = Some id ->
  let fh := fh1 ++ l1 :: fh2 ++ l2 :: fh3 in
  let pb := (process (__init__ fh warn crit debug) err).1 in
  let pb' := (process (__init__ (fh1 ++ l1 :: fh2 ++ fh3) warn crit debug) err).1 in
  occurrences id (keys (blocked pb)) = 1%nat
  /\ (occurrences id (keys (worrisome pb)) <= 1)%nat
  /\ size (blocked pb) = size (list_to_set (blocked_ids fh) : gset str)
  /\ size (worrisome pb) = size (list_to_set (worrisome_ids fh) : gset str)
  /\ blocked pb = blocked pb'
  /\ (is_rejection l1 = true -> worrisome pb = worrisome pb').
Proof.
  intros H1 H2 fh pb pb'.
  assert (Hin : id ∈ blocked_ids fh).
  { unfold blocked_ids. apply list_elem_of_omap. exists l1. split; [|exact H1].
    subst fh. set_solver. }
  repeat split.
  - apply occurrences_NoDup_in; [apply NoDup_fst_map_to_list|].
    apply elem_of_keys. subst pb. rewrite process_init_blocked, decide_True by exact Hin.
    eauto.
  - apply occurrences_NoDup_le, NoDup_fst_map_to_list.
  - rewrite <- size_dom. subst pb. rewrite process_init_dom_blocked. reflexivity.
  - rewrite <- size_dom. subst pb. rewrite process_init_dom_worrisome. reflexivity.
  - apply map_eq. intros k. subst pb pb'. rewrite !process_init_blocked.
    apply decide_ext. subst fh. unfold blocked_ids.
    rewrite !list_elem_of_omap. split; intros (x & Hx & Hk).
    + apply elem_of_with_repeat in Hx as [->|Hx]; [|eauto].
      exists l1. split; [apply elem_of_first_copy|congruence].
    + exists x. split; [apply elem_of_with_repeat; auto|exact Hk].
  - intros R. apply map_eq. intros k. subst pb pb'. rewrite !process_init_worrisome.
    apply decide_ext. subst fh. unfold worrisome_ids.
    rewrite !list_elem_of_omap. split; intros (x & Hx & Hk).
    + apply elem_of_with_repeat in Hx as [->|Hx]; [|eauto].
      exists l1. split; [apply elem_of_first_copy|]. rewrite R.
      destruct (is_rejection l2); [congruence|discriminate].
    + exists x. split; [apply elem_of_with_repeat; auto|exact Hk].
Qed.

(** C3 (amended). The primary matcher yields an identifier exactly for
    the lines holding the tag [ postfix/smtp[<digits>]: ], an alphanumeric
    identifier followed by [: ] and, later on the same line, the field
    [, status=bounced ] or [, status=deferred ], spelled in this letter
    case; the identifier it yields is one of such a reading of the line and
    is what the line adds to the blocked dictionary.  A line that holds
    neither field text contributes nothing, whatever else it holds. *)
Theorem C3_delivery_failure_lines (line : str) :
  (forall id, match_delivery_failure line = Some id -> delivery_failure line id)
  /\ (is_Some (match_delivery_failure line) <-> exists id, delivery_failure line id)
  /\ (file_line line ->
      (is_Some (match_delivery_failure line)
       <-> exists id, delivery_failure_anywhere line id))
  /\ (~ contains (lit ", status=bounced ") line ->
      ~ contains (lit ", status=deferred ") line ->
      match_delivery_failure line = None)
  /\ (forall self err,
        blocked (process_line (self, err) line).1
        = match match_delivery_failure line with
          | Some id => <[id := true]> (blocked self)
          | None => blocked self
          end).
Proof.
  assert (E : is_Some (match_delivery_failure line) <-> exists id, delivery_failure line id).
  { split.
    - intros [id H]. exists id. apply match_delivery_failure_sound, H.
    - intros [id H]. apply (match_delivery_failure_complete line id H). }
  split; [intros id; apply match_delivery_failure_sound|].
  split; [exact E|]. split; [|split].
  - intros F. rewrite E. split; intros [id H]; exists id.
    + apply delivery_failure_anywhere_intro, H.
    + apply delivery_failure_file_line; assumption.
  - intros Hb Hd. destruct (match_delivery_failure line) as [id|] eqn:H; [|reflexivity].
    exfalso. apply match_delivery_failure_sound in H
      as (pre & pid & mid & st & post & -> & _ & _ & _ & _ & _ & [->| ->]).
    + apply Hb. exists (pre ++ lit " postfix/smtp[" ++ pid ++ lit "]: " ++ id ++ lit ": " ++ mid), post.
      rewrite <- !app_assoc. reflexivity.
    + apply Hd. exists (pre ++ lit " postfix/smtp[" ++ pid ++ lit "]: " ++ id ++ lit ": " ++ mid), post.
      rewrite <- !app_assoc. reflexivity.
  - intros self err.
    destruct (process_line_fields self err line) as (_ & _ & _ & _ & _ & _ & Hb & _).
    exact Hb.
Qed.

(** C4 (amended). The rejection check holds exactly for the lines that hold, in any
    letter case, [ said: 550 ] followed later on the same line by [spam]
    or by [blocked], or [ said: 451 ] followed later by [busy]; in a line
    of a file, "later" is anywhere after the reply code. *)
Theorem C4_rejection_signatures (line : str) :
  (is_rejection line = true <-> rejection line)
  /\ (file_line line -> (is_rejection line = true <-> rejection_anywhere line)).
Proof.
  split; [apply is_rejection_spec|].
  intros F. rewrite is_rejection_spec. apply rejection_file_line, F.
Qed.

Lemma getitem_status_string :
  getitem status_string OK = Return (lit "OK")
  /\ getitem status_string WARNING = Return (lit "WARN")
  /\ getitem status_string CRITICAL = Return (lit "CRITICAL")
  /\ getitem status_string UNKNOWN = Return (lit "UNKNOWN").
Proof. repeat split; vm_compute; reflexivity. Qed.

Lemma report_not_processed py self :
  processed self = false ->
  report py self
  = Return (set_exit_note (set_exit_code self UNKNOWN)
              (lit "UNKNOWN No mail log analysis to report on")).
Proof.
  intros H. unfold report. rewrite H. cbn [negb].
  destruct getitem_status_string as (_ & _ & _ & ->). reflexivity.
Qed.

Lemma report_processed py self code :
  processed self = true ->
  (c ← int_ge py (Z.of_nat (size (worrisome self))) (crit self);
   if c : bool then Return CRITICAL
   else w ← int_ge py (Z.of_nat (size (worrisome self))) (warn self);
        Return (if w : bool then WARNING else OK)) = Return code ->
  exists level,
    getitem status_string code = Return level
    /\ (level = lit "OK" \/ level = lit "WARN" \/ level = lit "CRITICAL")
    /\ report py self
       = Return (set_exit_note (set_exit_code self code)
                   (note_of level (size (blocked self)) (size (worrisome self)))).
Proof.
  intros Hp Hc. unfold report. rewrite Hp. cbn [negb].
  destruct getitem_status_string as (G0 & G1 & G2 & _).
  destruct (int_ge py (Z.of_nat (size (worrisome self))) (crit self)) as [[]|] eqn:E1;
    try discriminate.
  - injection Hc as <-. exists (lit "CRITICAL"). rewrite G2. repeat split; auto.
  - destruct (int_ge py (Z.of_nat (size (worrisome self))) (warn self)) as [[]|] eqn:E2;
      try discriminate; injection Hc as <-.
    + exists (lit "WARN"). rewrite G1. repeat split; auto.
    + exists (lit "OK"). rewrite G0. repeat split; auto.
Qed.

(** C2. With both thresholds supplied, [report] on a completed scan takes
    the first of: Critical when the worrisome count reaches the critical
    threshold, Warning when it reaches the warning threshold, Ok. *)
Theorem C2_threshold_precedence py self (w c : Z) :
  processed self = true -> warn self = Some w -> crit self = Some c ->
  let n := Z.of_nat (size (worrisome self)) in
  exists self',
    report py self = Return self'
    /\ (c <= n -> exit_code self' = Some CRITICAL)
    /\ (n < c -> w <= n -> exit_code self' = Some WARNING)
    /\ (n < c -> n < w -> exit_code self' = Some OK)
    /\ (n = w -> n < c -> exit_code self' = Some WARNING)
    /\ (n = c -> exit_code self' = Some CRITICAL).
Proof.
  intros Hp Hw Hc n.
  destruct (report_processed py self
              (if c <=? n then CRITICAL else if w <=? n then WARNING else OK) Hp)
    as (level & _ & _ & ->).
  { rewrite Hw, Hc. fold n. simpl. destruct (c <=? n); reflexivity. }
  eexists. split; [reflexivity|]. simpl.
  destruct (Z.leb_spec c n), (Z.leb_spec w n); repeat split; intros; auto; lia.
Qed.

(** C6. Before any scan, [report] returns without an error, with status
    Unknown and a note saying that there is no analysis to report on. *)
Theorem C6_report_before_scan py self :
  processed self = false ->
  exists self',
    report py self = Return self'
    /\ exit_code self' = Some UNKNOWN
    /\ exit_note self' = Some (lit "UNKNOWN No mail log analysis to report on")
    /\ blocked self' = blocked self /\ worrisome self' = worrisome self.
Proof.
  intros H. rewrite (report_not_processed py self H).
  eexists. split; [reflexivity|]. repeat split.
Qed.


(** C9. With both thresholds supplied as 0, [main] takes the path of a
    missing threshold: it prints the help and returns Unknown (3) without
    opening the log. *)
Theorem C9_zero_thresholds_are_missing py fs file verbose :
  main py fs (Options (Some 0) (Some 0) file verbose) = ([PrintHelp], Return (Some UNKNOWN))
  /\ exit_status (main py fs (Options (Some 0) (Some 0) file verbose)).2 = 3.
Proof. split; reflexivity. Qed.

Lemma report_congr py p q :
  processed p = processed q -> warn p = warn q -> crit p = crit q ->
  blocked p = blocked q -> worrisome p = worrisome q ->
  observed (report py p) = observed (report py q).
Proof.
  intros Hp Hw Hc Hb Ho. unfold report. rewrite Hp, Hw, Hc, Hb, Ho.
  destruct (processed q); cbn [negb].
  - destruct (int_ge py _ (crit q)) as [[]|]; simpl; [| |reflexivity].
    + destruct (getitem status_string CRITICAL); simpl; [|reflexivity].
      rewrite Hb, Ho. reflexivity.
    + destruct (int_ge py _ (warn q)) as [b|]; simpl; [|reflexivity].
      destruct (getitem status_string _); simpl; [|reflexivity].
      rewrite Hb, Ho. reflexivity.
  - destruct (getitem status_string UNKNOWN); simpl; [|reflexivity].
    rewrite Hb, Ho. reflexivity.
Qed.

Lemma process_debug fh w c d1 d2 e1 e2 :
  let p1 := (process (__init__ fh w c d1) e1).1 in
  let p2 := (process (__init__ fh w c d2) e2).1 in
  processed p1 = processed p2 /\ warn p1 = warn p2 /\ crit p1 = crit p2
  /\ blocked p1 = blocked p2 /\ worrisome p1 = worrisome p2.
Proof.
  intros p1 p2.
  destruct (process_fields (__init__ fh w c d1) e1) as (A1 & A2 & _ & A4 & _ & _ & A7 & A8).
  destruct (process_fields (__init__ fh w c d2) e2) as (B1 & B2 & _ & B4 & _ & _ & B7 & B8).
  fold p1 in A1, A2, A4, A7, A8. fold p2 in B1, B2, B4, B7, B8.
  rewrite A1, A2, A4, A7, A8, B1, B2, B4, B7, B8. repeat split.
Qed.

Lemma filter_not_stderr (err : list str) (rest : list event) :
  List.filter not_stderr (map Stderr err ++ rest) = List.filter not_stderr rest.
Proof. induction err as [|e err IH]; simpl; auto. Qed.

(** C10. The debug setting changes neither dictionary, nor the exit code,
    nor the note (nor whether [report] raises); two runs of [main] that
    differ in the verbosity only return the same value and differ at most
    in what they write to the error channel. *)
Theorem C10_debug_has_no_effect py fh warn crit d1 d2 e1 e2 :
  let p1 := (process (__init__ fh warn crit d1) e1).1 in
  let p2 := (process (__init__ fh warn crit d2) e2).1 in
  blocked p1 = blocked p2
  /\ worrisome p1 = worrisome p2
  /\ observed (report py p1) = observed (report py p2)
  /\ (forall fs file v1 v2,
        let r1 := main py fs (Options warn crit file v1) in
        let r2 := main py fs (Options warn crit file v2) in
        r1.2 = r2.2 /\ List.filter not_stderr r1.1 = List.filter not_stderr r2.1).
Proof.
  intros p1 p2.
  destruct (process_debug fh warn crit d1 d2 e1 e2) as (Hp & Hw & Hc & Hb & Ho).
  fold p1 p2 in Hp, Hw, Hc, Hb, Ho.
  split; [exact Hb|]. split; [exact Ho|]. split; [apply report_congr; assumption|].
  intros fs file v1 v2. unfold main. simpl.
  destruct (py_not warn && py_not crit); [split; reflexivity|].
  destruct (fs file) as [lines|]; [|split; reflexivity].
  pose proof (process_debug lines warn crit (2 <? v1)%nat (2 <? v2)%nat [] [])
    as (Gp & Gw & Gc & Gb & Go). cbv zeta in *.
  pose proof (report_congr py _ _ Gp Gw Gc Gb Go) as R.
  destruct (process (__init__ lines warn crit (2 <? v1)%nat) []) as [q1 x1].
  destruct (process (__init__ lines warn crit (2 <? v2)%nat) []) as [q2 x2].
  simpl in R.
  destruct (report py q1) as [a1|], (report py q2) as [a2|]; simpl in R; try discriminate.
  - injection R as _ _ Hcode Hnote. simpl.
    rewrite !filter_not_stderr. rewrite Hcode, Hnote. split; reflexivity.
  - injection R as ->. simpl.
    rewrite <- (app_nil_r (map Stderr x1)), <- (app_nil_r (map Stderr x2)).
    rewrite !filter_not_stderr. split; reflexivity.
Qed.

(** ** The theorems at sample inputs *)

Lemma C2_witness :
  processed scan_spam = true /\ warn scan_spam = Some 1 /\ crit scan_spam = Some 2
  /\ exists self', report Py3 scan_spam = Return self' /\ exit_code self' = Some WARNING.
Proof.
  assert (Hp : processed scan_spam = true) by (vm_compute; reflexivity).
  assert (Hw : warn scan_spam = Some 1) by (vm_compute; reflexivity).
  assert (Hc : crit scan_spam = Some 2) by (vm_compute; reflexivity).
  repeat (split; [assumption|]).
  destruct (C2_threshold_precedence Py3 scan_spam 1 2 Hp Hw Hc)
    as (self' & H & _ & _ & _ & Hb & _).
  exists self'. split; [exact H|]. apply Hb; vm_compute; reflexivity.
Defined.

Lemma C5_witness :
  match_delivery_failure line_spam = Some (lit "E491D4296")
  /\ match_delivery_failure line_retry = Some (lit "E491D4296")
  /\ occurrences (lit "E491D4296")
       (keys (blocked (process (__init__ [line_spam; line_busy; line_retry]
                                         (Some 1) (Some 2) false) []).1)) = 1%nat
  /\ blocked (process (__init__ [line_spam; line_busy; line_retry]
                                (Some 1) (Some 2) false) []).1
     = blocked (process (__init__ [line_spam; line_busy] (Some 1) (Some 2) false) []).1.
Proof.
  assert (H1 : match_delivery_failure line_spam = Some (lit "E491D4296"))
    by (vm_compute; reflexivity).
  assert (H2 : match_delivery_failure line_retry = Some (lit "E491D4296"))
    by (vm_compute; reflexivity).
  split; [exact H1|]. split; [exact H2|].
  destruct (C5_identifier_counted_once [] [line_busy] [] line_spam line_retry
              (lit "E491D4296") (Some 1) (Some 2) false [] H1 H2)
    as (Ha & _ & _ & _ & Hb & _).
  split; [exact Ha|exact Hb].
Defined.

Lemma C6_witness :
  processed (__init__ [line_spam] (Some 1) (Some 2) false) = false
  /\ exists self',
       report Py3 (__init__ [line_spam] (Some 1) (Some 2) false) = Return self'
       /\ exit_code self' = Some 3
       /\ exit_note self' = Some (lit "UNKNOWN No mail log analysis to report on").
Proof.
  split; [reflexivity|].
  destruct (C6_report_before_scan Py3 (__init__ [line_spam] (Some 1) (Some 2) false) eq_refl)
    as (self' & H & Hc & Hn & _).
  exists self'. auto.
Defined.

Lemma C3_witness :
  file_line line_spam
  /\ (exists id, delivery_failure_anywhere line_spam id)
  /\ ~ contains (lit ", status=bounced ") line_sent
  /\ ~ contains (lit ", status=deferred ") line_sent
  /\ match_delivery_failure line_sent = None.
Proof.
  assert (F : file_line line_spam) by (vm_compute; reflexivity).
  assert (Hb : ~ contains (lit ", status=bounced ") line_sent).
  { rewrite <- occurs_spec. vm_compute. discriminate. }
  assert (Hd : ~ contains (lit ", status=deferred ") line_sent).
  { rewrite <- occurs_spec. vm_compute. discriminate. }
  split; [exact F|].
  split.
  - destruct (C3_delivery_failure_lines line_spam) as (_ & _ & H & _).
    apply (H F). vm_compute. eauto.
  - split; [exact Hb|]. split; [exact Hd|].
    destruct (C3_delivery_failure_lines line_sent) as (_ & _ & _ & H & _).
    exact (H Hb Hd).
Defined.

Lemma C4_witness :
  file_line line_busy /\ is_rejection line_busy = true /\ rejection_anywhere line_busy.
Proof.
  assert (F : file_line line_busy) by (vm_compute; reflexivity).
  assert (R : is_rejection line_busy = true) by (vm_compute; reflexivity).
  split; [exact F|]. split; [exact R|].
  destruct (C4_rejection_signatures line_busy) as [_ H].
  apply (H F), R.
Defined.

(** ** Where sentences of the specification fail *)

(** C3 as written: a line whose [status=] field holds [sent] would never
    contribute.  This line of a delivered message does. *)
Lemma C3_counterexample :
  file_line line_sent_quoting_bounced
  /\ contains (lit ", status=sent ") line_sent_quoting_bounced
  /\ match_delivery_failure line_sent_quoting_bounced = Some (lit "9C0DE42E1")
  /\ blocked (process (__init__ [line_sent_quoting_bounced] (Some 1) (Some 2) false) []).1
       !! lit "9C0DE42E1" = Some true.
Proof.
  split; [vm_compute; reflexivity|]. split.
  - exists (take 127 line_sent_quoting_bounced),
           (drop (127 + 14) line_sent_quoting_bounced).
    vm_compute. reflexivity.
  - split; vm_compute; reflexivity.
Qed.

(** ** The end-to-end scenarios of the specification *)

Example scenario_1 py :
  main py (only_maillog [line_spam]) (Options (Some 1) (Some 2) maillog 0)
  = ([Open maillog;
      Stdout (lit "WARN 1 worrisome | blocked=1 worrisome=1" ++ [newline])],
     Return (Some 1)).
Proof. destruct py; vm_compute; reflexivity. Qed.

Example scenario_2 py :
  main py (only_maillog [line_busy]) (Options (Some 1) (Some 1) maillog 0)
  = ([Open maillog;
      Stdout (lit "CRITICAL 1 worrisome | blocked=1 worrisome=1" ++ [newline])],
     Return (Some 2)).
Proof. destruct py; vm_compute; reflexivity. Qed.

Example scenario_3 py :
  main py (only_maillog [line_retry]) (Options (Some 1) (Some 1) maillog 0)
  = ([Open maillog;
      Stdout (lit "OK 0 worrisome | blocked=1 worrisome=0" ++ [newline])],
     Return (Some 0)).
Proof. destruct py; vm_compute; reflexivity. Qed.

Example scenario_4 py :
  main py (only_maillog []) (Options (Some 1) (Some 1) maillog 0)
  = ([Open maillog;
      Stdout (lit "OK 0 worrisome | blocked=0 worrisome=0" ++ [newline])],
     Return (Some 0)).
Proof. destruct py; vm_compute; reflexivity. Qed.

Example scenario_sent py :
  main py (only_maillog [line_sent]) (Options (Some 1) (Some 1) maillog 0)
  = ([Open maillog;
      Stdout (lit "OK 0 worrisome | blocked=0 worrisome=0" ++ [newline])],
     Return (Some 0)).
Proof. destruct py; vm_compute; reflexivity. Qed.

End Claims.

(** * More about the scan, the report and the command line *)

Section ScanFacts.
Import PostfixBounces.


Lemma process_fh self err : fh (process self err).1 = [].
Proof.
  unfold process. destruct (fold_left process_line (fh self) (self, err)). reflexivity.
Qed.

Lemma process_line_err self err line :
  (process_line (self, err) line).2
  = if debug self then err ++ trace_of line else err.
Proof.
  unfold process_line, trace_of, trace.
  destruct (match_delivery_failure line) as [id|]; simpl.
  - destruct (is_rejection line), (debug self); simpl; rewrite <- ?app_assoc; reflexivity.
  - destruct (debug self); [rewrite app_nil_r|]; reflexivity.
Qed.

Lemma fold_process_line_err lines : forall self err,
  (fold_left process_line lines (self, err)).2
  = if debug self then err ++ flat_map trace_of lines else err.
Proof.
  induction lines as [|line lines IH]; intros self err.
  - simpl. destruct (debug self); [rewrite app_nil_r|]; reflexivity.
  - cbn [fold_left flat_map].
    pose proof (process_line_err self err line) as E.
    destruct (process_line_fields self err line) as (_ & _ & D & _).
    destruct (process_line (self, err) line) as [self' err']. cbn [fst snd] in *.
    rewrite IH, D, E. destruct (debug self); [rewrite <- app_assoc|]; reflexivity.
Qed.

Lemma process_err self err :
  (process self err).2
  = if debug self then err ++ flat_map trace_of (fh self) else err.
Proof.
  unfold process. pose proof (fold_process_line_err (fh self) self err) as E.
  destruct (fold_left process_line (fh self) (self, err)). exact E.
Qed.

Lemma elem_of_blocked_ids (lines : list str) (id : str) :
  id ∈ blocked_ids lines
  <-> exists line, line ∈ lines /\ match_delivery_failure line = Some id.
Proof. apply list_elem_of_omap. Qed.

Lemma elem_of_worrisome_ids (lines : list str) (id : str) :
  id ∈ worrisome_ids lines
  <-> exists line, line ∈ lines /\ match_delivery_failure line = Some id
                   /\ is_rejection line = true.
Proof.
  unfold worrisome_ids. rewrite list_elem_of_omap.
  split; intros (line & Hin & H); exists line; (split; [exact Hin|]).
  - destruct (is_rejection line); [auto|discriminate].
  - destruct H as [H ->]. exact H.
Qed.

Lemma scan_blocked lines w c d (k : str) :
  blocked (scan lines w c d).1 !! k
  = if decide (k ∈ blocked_ids lines) then Some true else None.
Proof.
  unfold scan.
  destruct (process_fields (__init__ lines w c d) []) as (_ & _ & _ & _ & _ & _ & -> & _).
  simpl. rewrite lookup_fold_insert_blocked.
  destruct (decide _); [reflexivity|apply lookup_empty].
Qed.

Lemma scan_worrisome lines w c d (k : str) :
  worrisome (scan lines w c d).1 !! k
  = if decide (k ∈ worrisome_ids lines) then Some true else None.
Proof.
  unfold scan.
  destruct (process_fields (__init__ lines w c d) []) as (_ & _ & _ & _ & _ & _ & _ & ->).
  simpl. rewrite lookup_fold_insert_worrisome.
  destruct (decide _); [reflexivity|apply lookup_empty].
Qed.

Lemma scan_fields lines w c d :
  let pb := (scan lines w c d).1 in
  fh pb = [] /\ warn pb = w /\ crit pb = c /\ debug pb = d /\ processed pb = true
  /\ exit_code pb = None /\ exit_note pb = None.
Proof.
  unfold scan.
  destruct (process_fields (__init__ lines w c d) []) as (A & B & C & D & E & F & _).
  pose proof (process_fh (__init__ lines w c d) []) as G.
  simpl in *. tauto.
Qed.

(** X1. After the scan by a fresh aggregator, the blocked dictionary maps
    to [True] exactly the identifiers of the lines that report a delivery
    failure, the worrisome dictionary exactly those of the lines that also
    carry a rejection signature, and neither holds anything else. *)
Theorem X1_scan_dictionaries (lines : list str) w c d (id : str) :
  let pb := (scan lines w c d).1 in
  (blocked pb !! id = Some true
   <-> exists line, line ∈ lines /\ match_delivery_failure line = Some id)
  /\ (worrisome pb !! id = Some true
      <-> exists line, line ∈ lines /\ match_delivery_failure line = Some id
                       /\ is_rejection line = true)
  /\ (blocked pb !! id = Some true \/ blocked pb !! id = None)
  /\ (worrisome pb !! id = Some true \/ worrisome pb !! id = None).
Proof.
  intros pb. subst pb. rewrite scan_blocked, scan_worrisome.
  rewrite <- elem_of_blocked_ids, <- elem_of_worrisome_ids.
  repeat split; try (destruct (decide _); auto; discriminate);
    try (intros H; rewrite decide_True by exact H; reflexivity).
Qed.




Lemma blocked_ids_app (l1 l2 : list str) :
  blocked_ids (l1 ++ l2) = blocked_ids l1 ++ blocked_ids l2.
Proof. apply omap_app. Qed.

Lemma worrisome_ids_app (l1 l2 : list str) :
  worrisome_ids (l1 ++ l2) = worrisome_ids l1 ++ worrisome_ids l2.
Proof. apply omap_app. Qed.

(** X3. Scanning two logs one after the other as one log gives the union
    of the dictionaries of the two scans, and the two traces in sequence. *)
Theorem X3_scan_app (lines1 lines2 : list str) w c d :
  blocked (scan (lines1 ++ lines2) w c d).1
  = blocked (scan lines1 w c d).1 ∪ blocked (scan lines2 w c d).1
  /\ worrisome (scan (lines1 ++ lines2) w c d).1
     = worrisome (scan lines1 w c d).1 ∪ worrisome (scan lines2 w c d).1
  /\ (scan (lines1 ++ lines2) w c d).2
     = (scan lines1 w c d).2 ++ (scan lines2 w c d).2.
Proof.
  repeat split.
  - apply map_eq. intros k. rewrite lookup_union, !scan_blocked, blocked_ids_app.
    destruct (decide (k ∈ _ ++ _)) as [H|H]; rewrite elem_of_app in H;
      destruct (decide (k ∈ blocked_ids lines1)) as [H1|H1],
               (decide (k ∈ blocked_ids lines2)) as [H2|H2];
      try reflexivity; exfalso; tauto.
  - apply map_eq. intros k. rewrite lookup_union, !scan_worrisome, worrisome_ids_app.
    destruct (decide (k ∈ _ ++ _)) as [H|H]; rewrite elem_of_app in H;
      destruct (decide (k ∈ worrisome_ids lines1)) as [H1|H1],
               (decide (k ∈ worrisome_ids lines2)) as [H2|H2];
      try reflexivity; exfalso; tauto.
  - unfold scan. rewrite !process_err. simpl.
    destruct d; [apply flat_map_app|reflexivity].
Qed.

Lemma blocked_ids_cons (l : str) (lines : list str) :
  blocked_ids (l :: lines)
  = match match_delivery_failure l with
    | Some id => id :: blocked_ids lines
    | None => blocked_ids lines
    end.
Proof. reflexivity. Qed.

Lemma worrisome_ids_cons (l : str) (lines : list str) :
  worrisome_ids (l :: lines)
  = match (if is_rejection l then match_delivery_failure l else None) with
    | Some id => id :: worrisome_ids lines
    | None => worrisome_ids lines
    end.
Proof. reflexivity. Qed.

Lemma process_line_skip (st : t * list str) (line : str) :
  qualifies line = false -> process_line st line = st.
Proof.
  unfold qualifies, process_line. destruct st as [self err].
  destruct (match_delivery_failure line); [discriminate|reflexivity].
Qed.


Lemma size_list_to_set_le (l : list str) :
  (size (list_to_set l : gset str) <= length l)%nat.
Proof.
  induction l as [|x l IH].
  - rewrite list_to_set_nil, size_empty. reflexivity.
  - rewrite list_to_set_cons, size_union_alt, size_singleton. cbn [length].
    assert (list_to_set l ∖ {[x]} ⊆ (list_to_set l : gset str)) as S.
    { intros k Hk. apply elem_of_difference in Hk as [Hk _]. exact Hk. }
    apply subseteq_size in S. lia.
Qed.

Lemma length_blocked_ids (lines : list str) :
  length (blocked_ids lines) = length (List.filter qualifies lines).
Proof.
  induction lines as [|l lines IH]; [reflexivity|].
  rewrite blocked_ids_cons. cbn [List.filter]. unfold qualifies at 1.
  destruct (match_delivery_failure l); cbn [length]; rewrite IH; reflexivity.
Qed.

(** X5. Each line adds at most one identifier: the blocked count is at
    most the number of lines that report a delivery failure, which is at
    most the number of lines; a log without such a line leaves both
    dictionaries empty. *)
Theorem X5_scan_counts_bounded (lines : list str) w c d :
  (size (blocked (scan lines w c d).1) <= length (List.filter qualifies lines))%nat
  /\ (length (List.filter qualifies lines) <= length lines)%nat
  /\ (List.filter qualifies lines = [] ->
      blocked (scan lines w c d).1 = ∅ /\ worrisome (scan lines w c d).1 = ∅).
Proof.
  split; [|split].
  - rewrite <- length_blocked_ids.
    assert (dom (blocked (scan lines w c d).1) = list_to_set (blocked_ids lines)) as D.
    { apply set_eq. intros k. rewrite elem_of_dom, scan_blocked, elem_of_list_to_set.
      destruct (decide _); split; intros H; try done; eauto. }
    rewrite <- size_dom, D. apply size_list_to_set_le.
  - apply List.filter_length_le.
  - intros E.
    assert (blocked_ids lines = []) as Hb.
    { apply length_zero_iff_nil. rewrite length_blocked_ids, E. reflexivity. }
    split; apply map_eq; intros k; rewrite lookup_empty.
    + rewrite scan_blocked, Hb. reflexivity.
    + rewrite scan_worrisome. destruct (decide _) as [H|]; [|reflexivity].
      apply worrisome_ids_blocked in H. rewrite Hb in H. inversion H.
Qed.

(** X6. Tracing: with the debug setting off a scan writes nothing to the
    error channel; with it on it writes, for each line that reports a
    delivery failure and in the order of the log, the line after
    "blocked: " and, when the line carries a rejection signature, the line
    again after "worrisome: ". What was written before stays in place. *)
Theorem X6_process_trace (self : t) (err : list str) :
  (process self err).2
  = if debug self then err ++ flat_map trace_of (fh self) else err.
Proof. apply process_err. Qed.

(** X8. From any aggregator, fresh or not, [process] only adds
    identifiers, changes nothing but the two dictionaries, the file handle
    and the flag, and keeps the worrisome identifiers among the blocked
    ones when they were so at the start. *)
Theorem X8_process_invariant (self : t) (err : list str) :
  dom (worrisome self) ⊆ dom (blocked self) ->
  let self' := (process self err).1 in
  dom (worrisome self') ⊆ dom (blocked self')
  /\ dom (blocked self) ⊆ dom (blocked self')
  /\ dom (worrisome self) ⊆ dom (worrisome self')
  /\ processed self' = true
  /\ warn self' = warn self /\ crit self' = crit self /\ debug self' = debug self
  /\ exit_code self' = exit_code self /\ exit_note self' = exit_note self.
Proof.
  intros I self'.
  destruct (process_fields self err) as (A & B & C & D & E & F & Hb & Hw).
  fold self' in A, B, C, D, E, F, Hb, Hw.
  assert (Lb : forall k, k ∈ dom (blocked self')
                         <-> k ∈ blocked_ids (fh self) \/ k ∈ dom (blocked self)).
  { intros k. rewrite !elem_of_dom, Hb, lookup_fold_insert_blocked.
    destruct (decide (k ∈ blocked_ids (fh self))) as [Hk|Hk].
    - split; [left; exact Hk|intros _; eexists; reflexivity].
    - split; [right; assumption|intros [?|?]; [contradiction|assumption]]. }
  assert (Lw : forall k, k ∈ dom (worrisome self')
                         <-> k ∈ worrisome_ids (fh self) \/ k ∈ dom (worrisome self)).
  { intros k. rewrite !elem_of_dom, Hw, lookup_fold_insert_worrisome.
    destruct (decide (k ∈ worrisome_ids (fh self))) as [Hk|Hk].
    - split; [left; exact Hk|intros _; eexists; reflexivity].
    - split; [right; assumption|intros [?|?]; [contradiction|assumption]]. }
  repeat split; auto.
  - intros k. rewrite Lw, Lb. intros [H|H]; [left; apply worrisome_ids_blocked, H|].
    right. apply I, H.
  - intros k. rewrite Lb. auto.
  - intros k. rewrite Lw. auto.
Qed.


Lemma X5_witness :
  List.filter qualifies [line_sent] = []
  /\ blocked (scan [line_sent] (Some 1) (Some 2) false).1 = ∅.
Proof.
  assert (E : List.filter qualifies [line_sent] = []) by (vm_compute; reflexivity).
  split; [exact E|].
  destruct (X5_scan_counts_bounded [line_sent] (Some 1) (Some 2) false) as (_ & _ & H).
  exact (proj1 (H E)).
Defined.

Lemma X8_witness :
  dom (worrisome resumed) ⊆ dom (blocked resumed)
  /\ dom (worrisome (process resumed []).1) ⊆ dom (blocked (process resumed []).1)
  /\ dom (blocked resumed) ⊆ dom (blocked (process resumed []).1).
Proof.
  assert (I : dom (worrisome resumed) ⊆ dom (blocked resumed)).
  { unfold resumed. simpl. rewrite dom_empty_L. apply empty_subseteq. }
  split; [exact I|].
  destruct (X8_process_invariant resumed [] I) as (A & B & _).
  split; [exact A|exact B].
Defined.

End ScanFacts.

Section ReportFacts.
Import PostfixBounces.

Lemma status_of_cases (w c : Z) (n : nat) :
  (status_of w c n = OK \/ status_of w c n = WARNING \/ status_of w c n = CRITICAL)
  /\ status_string !! status_of w c n = Some (level_of (status_of w c n)).
Proof.
  unfold status_of, level_of.
  destruct (c <=? Z.of_nat n); [split; [auto|vm_compute; reflexivity]|].
  destruct (w <=? Z.of_nat n); split; auto; vm_compute; reflexivity.
Qed.

(** [report] with both thresholds supplied, after a scan. *)
Lemma report_both py self (w c : Z) :
  processed self = true -> warn self = Some w -> crit self = Some c ->
  report py self
  = Return (set_exit_note
              (set_exit_code self (status_of w c (size (worrisome self))))
              (note_of (level_of (status_of w c (size (worrisome self))))
                 (size (blocked self)) (size (worrisome self)))).
Proof.
  intros Hp Hw Hc. unfold report. rewrite Hp, Hw, Hc. cbn [negb int_ge].
  destruct (status_of_cases w c (size (worrisome self))) as [_ L].
  unfold status_of in *. unfold getitem.
  destruct (c <=? Z.of_nat (size (worrisome self))); simpl.
  - simpl in L. rewrite L. reflexivity.
  - destruct (w <=? Z.of_nat (size (worrisome self))); simpl in *; rewrite L; reflexivity.
Qed.

Lemma status_of_mono (w c : Z) (n m : nat) :
  (n <= m)%nat -> status_of w c n <= status_of w c m.
Proof.
  intros H. unfold status_of, OK, WARNING, CRITICAL.
  destruct (Z.leb_spec c (Z.of_nat n)), (Z.leb_spec c (Z.of_nat m)),
           (Z.leb_spec w (Z.of_nat n)), (Z.leb_spec w (Z.of_nat m)); lia.
Qed.

(** X9. [report] reads the scan and writes the exit code and the note
    only: whenever it returns, the other fields are as before, and a
    second [report] returns the same aggregator again. *)
Theorem X9_report_idempotent py (self self' : t) :
  report py self = Return self' ->
  report py self' = Return self'
  /\ fh self' = fh self /\ warn self' = warn self /\ crit self' = crit self
  /\ debug self' = debug self /\ processed self' = processed self
  /\ blocked self' = blocked self /\ worrisome self' = worrisome self
  /\ is_Some (exit_code self') /\ is_Some (exit_note self').
Proof.
  unfold report. destruct (processed self) eqn:Hp; cbn [negb].
  - destruct (int_ge py (Z.of_nat (size (worrisome self))) (crit self)) as [[]|] eqn:E1;
      simpl; try discriminate.
    + destruct (getitem status_string CRITICAL) as [s|] eqn:G; simpl; [|discriminate].
      intros [= <-]. simpl. rewrite Hp, E1. simpl. rewrite G. simpl.
      repeat split; eauto.
    + destruct (int_ge py (Z.of_nat (size (worrisome self))) (warn self)) as [b|] eqn:E2;
        simpl; [|discriminate].
      destruct (getitem status_string (if b then WARNING else OK)) as [s|] eqn:G;
        simpl; [|discriminate].
      intros [= <-]. simpl. rewrite Hp, E1. simpl. rewrite E2. simpl. rewrite G. simpl.
      repeat split; eauto.
  - destruct (getitem status_string UNKNOWN) as [s|] eqn:G; simpl; [|discriminate].
    intros [= <-]. cbn [processed set_exit_note set_exit_code]. rewrite Hp.
    simpl. repeat split; eauto.
Qed.

(** X10. The status never goes down when the worrisome count goes up: of
    two completed scans under the same two thresholds, the one with at
    least as many worrisome identifiers has at least as high an exit
    code, whatever the order of the two thresholds. *)
Theorem X10_report_monotone py (p q : t) (w c : Z) :
  processed p = true -> processed q = true ->
  warn p = Some w -> warn q = Some w -> crit p = Some c -> crit q = Some c ->
  (size (worrisome p) <= size (worrisome q))%nat ->
  exists p' q' cp cq,
    report py p = Return p' /\ report py q = Return q'
    /\ exit_code p' = Some cp /\ exit_code q' = Some cq /\ cp <= cq.
Proof.
  intros Pp Pq Wp Wq Cp Cq H.
  rewrite (report_both py p w c Pp Wp Cp), (report_both py q w c Pq Wq Cq).
  eexists _, _, _, _. repeat split. apply status_of_mono, H.
Qed.

(** X11. A longer log never lowers the status: with both thresholds
    supplied, the exit code after scanning a log followed by more lines
    is at least the exit code after scanning the log alone. *)
Theorem X11_more_lines_never_lower py (lines more : list str) (w c : Z) d :
  exists p' q' cp cq,
    report py (scan lines (Some w) (Some c) d).1 = Return p'
    /\ report py (scan (lines ++ more) (Some w) (Some c) d).1 = Return q'
    /\ exit_code p' = Some cp /\ exit_code q' = Some cq /\ cp <= cq.
Proof.
  destruct (scan_fields lines (Some w) (Some c) d) as (_ & A1 & A2 & _ & A3 & _).
  destruct (scan_fields (lines ++ more) (Some w) (Some c) d) as (_ & B1 & B2 & _ & B3 & _).
  rewrite (report_both py _ w c A3 A1 A2), (report_both py _ w c B3 B1 B2).
  eexists _, _, _, _. repeat split. apply status_of_mono.
  rewrite <- !size_dom. apply subseteq_size. intros k.
  rewrite !elem_of_dom, !scan_worrisome, worrisome_ids_app.
  destruct (decide (k ∈ worrisome_ids lines)) as [H|H]; [|intros [? ?]; discriminate].
  intros _. rewrite decide_True by (apply elem_of_app; auto). eauto.
Qed.

(** X12. The thresholds are not required to be ordered: when the critical
    threshold is at most the warning threshold, a completed scan is
    reported as Critical or as Ok, never as Warning. *)
Theorem X12_inverted_thresholds py (self : t) (w c : Z) :
  processed self = true -> warn self = Some w -> crit self = Some c ->
  c <= w ->
  exists self' code,
    report py self = Return self' /\ exit_code self' = Some code
    /\ (code = CRITICAL \/ code = OK)
    /\ (code = CRITICAL <-> c <= Z.of_nat (size (worrisome self))).
Proof.
  intros Hp Hw Hc H. rewrite (report_both py self w c Hp Hw Hc).
  eexists _, _. split; [reflexivity|]. split; [reflexivity|].
  unfold status_of, OK, WARNING, CRITICAL.
  destruct (Z.leb_spec c (Z.of_nat (size (worrisome self)))),
           (Z.leb_spec w (Z.of_nat (size (worrisome self)))); split; auto; try lia;
    split; intros; try lia; discriminate.
Qed.

(** X13. Thresholds that are zero or negative are met by every count: a
    critical threshold of at most 0 reports every completed scan as
    Critical, and a warning threshold of at most 0 never reports Ok. *)
Theorem X13_nonpositive_thresholds py (self : t) (w c : Z) :
  processed self = true -> warn self = Some w -> crit self = Some c ->
  exists self' code,
    report py self = Return self' /\ exit_code self' = Some code
    /\ (c <= 0 -> code = CRITICAL)
    /\ (w <= 0 -> code <> OK).
Proof.
  intros Hp Hw Hc. rewrite (report_both py self w c Hp Hw Hc).
  eexists _, _. split; [reflexivity|]. split; [reflexivity|].
  unfold status_of, OK, WARNING, CRITICAL.
  destruct (Z.leb_spec c (Z.of_nat (size (worrisome self)))),
           (Z.leb_spec w (Z.of_nat (size (worrisome self)))); split; intros; lia.
Qed.

(** X14. A missing threshold reaches the comparison as [None]. Without a
    critical threshold, [report] on a completed scan raises [TypeError]
    under Python 3 and reports Critical under Python 2, whatever the
    count.  Without a warning threshold, a count that reaches the critical
    threshold is reported as Critical; a smaller one raises [TypeError]
    under Python 3 and is reported as Warning under Python 2. *)
Theorem X14_missing_threshold (self : t) :
  processed self = true ->
  (crit self = None ->
   report Py3 self = Raise TypeError
   /\ exists self', report Py2 self = Return self' /\ exit_code self' = Some CRITICAL)
  /\ (forall c, crit self = Some c -> warn self = None ->
      (c <= Z.of_nat (size (worrisome self)) ->
       forall py, exists self', report py self = Return self'
                                /\ exit_code self' = Some CRITICAL)
      /\ (Z.of_nat (size (worrisome self)) < c ->
          report Py3 self = Raise TypeError
          /\ exists self', report Py2 self = Return self'
                           /\ exit_code self' = Some WARNING)).
Proof.
  intros Hp. destruct getitem_status_string as (G0 & G1 & G2 & _).
  split.
  - intros Hc. unfold report. rewrite Hp, Hc. cbn [negb int_ge]. simpl.
    split; [reflexivity|]. rewrite G2. simpl. eexists. split; reflexivity.
  - intros c Hc Hw. unfold report. rewrite Hp, Hc, Hw. cbn [negb int_ge]. split.
    + intros H py. apply Z.leb_le in H. rewrite H. simpl. rewrite G2. simpl.
      eexists. split; reflexivity.
    + intros H. apply Z.leb_gt in H. rewrite H. simpl.
      split; [reflexivity|]. rewrite G1. simpl. eexists. split; reflexivity.
Qed.

End ReportFacts.

Section MainFacts.
Import PostfixBounces.

Lemma threshold_given_guard (o : options) :
  threshold_given o <-> py_not (opt_warn o) && py_not (opt_crit o) = false.
Proof.
  unfold threshold_given. rewrite andb_false_iff. split.
  - intros (x & Hx & [H|H]); rewrite H; simpl; [left|right]; apply Z.eqb_neq, Hx.
  - intros [H|H].
    + destruct (opt_warn o) as [x|]; [|discriminate]. simpl in H.
      exists x. split; [apply Z.eqb_neq, H|auto].
    + destruct (opt_crit o) as [x|]; [|discriminate]. simpl in H.
      exists x. split; [apply Z.eqb_neq, H|auto].
Qed.

Lemma main_scan py fs (o : options) (lines : list str) :
  threshold_given o -> fs (opt_file o) = Some lines ->
  main py fs o
  = match report py (scan lines (opt_warn o) (opt_crit o) (2 <? opt_verbose o)%nat).1 with
    | Raise e =>
        (Open (opt_file o)
           :: map Stderr (scan lines (opt_warn o) (opt_crit o) (2 <? opt_verbose o)%nat).2,
         Raise e)
    | Return pb =>
        ((Open (opt_file o)
            :: map Stderr (scan lines (opt_warn o) (opt_crit o) (2 <? opt_verbose o)%nat).2)
           ++ [print (exit_note pb)],
         Return (exit_code pb))
    end.
Proof.
  intros G F. apply threshold_given_guard in G. unfold main, scan. rewrite G, F.
  destruct (process _ _) as [pb err]. reflexivity.
Qed.

Lemma scan_err lines w c d :
  (scan lines w c d).2 = if d then flat_map trace_of lines else [].
Proof. unfold scan. rewrite process_err. destruct d; reflexivity. Qed.

Lemma scan_sizes lines w c d :
  size (blocked (scan lines w c d).1) = blocked_count lines
  /\ size (worrisome (scan lines w c d).1) = worrisome_count lines.
Proof.
  unfold blocked_count, worrisome_count. rewrite <- !size_dom. split; f_equal.
  - apply set_eq. intros k. rewrite elem_of_dom, scan_blocked, elem_of_list_to_set.
    destruct (decide _); split; intros H; try done; eauto.
  - apply set_eq. intros k. rewrite elem_of_dom, scan_worrisome, elem_of_list_to_set.
    destruct (decide _); split; intros H; try done; eauto.
Qed.

(** What [report] returns after a scan, when it returns. *)
Lemma report_return py (self self' : t) :
  processed self = true -> report py self = Return self' ->
  exists code,
    (code = OK \/ code = WARNING \/ code = CRITICAL)
    /\ self' = set_exit_note (set_exit_code self code)
                 (note_of (level_of code) (size (blocked self)) (size (worrisome self))).
Proof.
  intros Hp. unfold report. rewrite Hp. cbn [negb].
  destruct (int_ge py _ (crit self)) as [[]|]; simpl; try discriminate.
  - intros [= <-]. exists CRITICAL. auto.
  - destruct (int_ge py _ (warn self)) as [[]|]; simpl; try discriminate;
      intros [= <-]; [exists WARNING|exists OK]; auto.
Qed.

Lemma threshold_given_dec (o : options) :
  threshold_given o \/ py_not (opt_warn o) && py_not (opt_crit o) = true.
Proof.
  destruct (py_not (opt_warn o) && py_not (opt_crit o)) eqn:E; [auto|].
  left. apply threshold_given_guard, E.
Qed.

(** The four ways a run of [main] can go. *)
Lemma main_cases py fs (o : options) :
  main py fs o = usage
  \/ (threshold_given o /\ fs (opt_file o) = None
      /\ main py fs o = ([Open (opt_file o)], Raise IOError))
  \/ (exists lines e,
        threshold_given o /\ fs (opt_file o) = Some lines
        /\ main py fs o
           = (Open (opt_file o)
                :: map Stderr (if (2 <? opt_verbose o)%nat
                               then flat_map trace_of lines else []),
              Raise e))
  \/ (exists lines code,
        threshold_given o /\ fs (opt_file o) = Some lines
        /\ (code = OK \/ code = WARNING \/ code = CRITICAL)
        /\ main py fs o
           = ((Open (opt_file o)
                 :: map Stderr (if (2 <? opt_verbose o)%nat
                                then flat_map trace_of lines else []))
                ++ [Stdout (note_of (level_of code) (blocked_count lines)
                              (worrisome_count lines) ++ [newline])],
              Return (Some code))).
Proof.
  destruct (threshold_given_dec o) as [G|G].
  2:{ left. unfold main. rewrite G. reflexivity. }
  right. destruct (fs (opt_file o)) as [lines|] eqn:F.
  2:{ left. split; [exact G|]. split; [reflexivity|].
      apply threshold_given_guard in G. unfold main. rewrite G, F. reflexivity. }
  right. rewrite (main_scan py fs o lines G F), scan_err.
  destruct (scan_fields lines (opt_warn o) (opt_crit o) (2 <? opt_verbose o)%nat)
    as (_ & _ & _ & _ & Hp & _).
  destruct (scan_sizes lines (opt_warn o) (opt_crit o) (2 <? opt_verbose o)%nat)
    as [Sb Sw].
  destruct (report py _) as [pb|e] eqn:R.
  - right. apply (report_return py _ pb Hp) in R as (code & Hc & ->).
    exists lines, code. rewrite Sb, Sw. repeat split; auto.
  - left. exists lines, e. auto.
Qed.

Lemma main_both py fs (o : options) (lines : list str) (w c : Z) :
  opt_warn o = Some w -> opt_crit o = Some c -> w <> 0 \/ c <> 0 ->
  fs (opt_file o) = Some lines ->
  main py fs o
  = ((Open (opt_file o)
        :: map Stderr (if (2 <? opt_verbose o)%nat then flat_map trace_of lines else []))
       ++ [Stdout (note_of (level_of (status_of w c (worrisome_count lines)))
                     (blocked_count lines) (worrisome_count lines) ++ [newline])],
     Return (Some (status_of w c (worrisome_count lines)))).
Proof.
  intros Hw Hc Hn F.
  assert (G : threshold_given o).
  { destruct Hn as [H|H]; [exists w|exists c]; auto. }
  rewrite (main_scan py fs o lines G F), scan_err, Hw, Hc.
  destruct (scan_fields lines (Some w) (Some c) (2 <? opt_verbose o)%nat)
    as (_ & A1 & A2 & _ & A3 & _).
  destruct (scan_sizes lines (Some w) (Some c) (2 <? opt_verbose o)%nat) as [Sb Sw].
  rewrite (report_both py _ w c A3 A1 A2), Sb, Sw. reflexivity.
Qed.

Lemma filter_is_stdout_map (err : list str) (rest : list event) :
  List.filter is_stdout (map Stderr err ++ rest) = List.filter is_stdout rest.
Proof. induction err as [|e err IH]; simpl; auto. Qed.

Lemma filter_is_stderr_map (err : list str) (rest : list event) :
  List.filter is_stderr (map Stderr err ++ rest)
  = map Stderr err ++ List.filter is_stderr rest.
Proof. induction err as [|e err IH]; simpl; [reflexivity|]. rewrite IH. reflexivity. Qed.

Lemma no_qualifying (lines : list str) :
  List.filter qualifies lines = [] ->
  flat_map trace_of lines = [] /\ blocked_ids lines = [] /\ worrisome_ids lines = [].
Proof.
  induction lines as [|l lines IH]; [auto|].
  cbn [List.filter]. destruct (qualifies l) eqn:Q; [discriminate|].
  intros H. destruct (IH H) as (A & B & C).
  unfold qualifies in Q. rewrite blocked_ids_cons, worrisome_ids_cons.
  cbn [flat_map]. unfold trace_of at 1.
  destruct (match_delivery_failure l); [discriminate|].
  destruct (is_rejection l); rewrite A, B, C; auto.
Qed.

(** X15. A log that cannot be opened ends the run with the error of
    [open]: nothing is scanned, nothing is printed and no status is
    returned. *)
Theorem X15_missing_log py fs (o : options) :
  threshold_given o -> fs (opt_file o) = None ->
  main py fs o = ([Open (opt_file o)], Raise IOError).
Proof.
  intros G F. apply threshold_given_guard in G. unfold main. rewrite G, F. reflexivity.
Qed.

(** X17. Once the options are parsed, a run of [main] writes to standard
    output at most once.  When it returns, the value is one of the four
    status codes; it is Unknown exactly when the help, and nothing else,
    was written; any other status comes with exactly one printed line and
    no help.  A run that ends with an exception writes nothing to standard
    output. *)
Theorem X17_stdout_and_status py fs (o : options) :
  (length (List.filter is_stdout (main py fs o).1) <= 1)%nat
  /\ (forall r, (main py fs o).2 = Return r ->
        exists code,
          r = Some code
          /\ (code = OK \/ code = WARNING \/ code = CRITICAL \/ code = UNKNOWN)
          /\ (code = UNKNOWN <-> (main py fs o).1 = [PrintHelp])
          /\ (code <> UNKNOWN ->
              exists note, List.filter is_stdout (main py fs o).1 = [Stdout note]))
  /\ (forall e, (main py fs o).2 = Raise e ->
        List.filter is_stdout (main py fs o).1 = []).
Proof.
  destruct (main_cases py fs o)
    as [H|[(_ & _ & H)|[(lines & e & _ & _ & H)|(lines & code & _ & _ & Hc & H)]]];
    rewrite H; clear H.
  - split; [simpl; lia|]. split; [|discriminate].
    intros r [= <-]. exists UNKNOWN. repeat split; auto. intros H. contradiction.
  - split; [simpl; lia|]. split; [discriminate|]. reflexivity.
  - assert (E : forall l, List.filter is_stdout (Open (opt_file o) :: map Stderr l) = []).
    { intros l. simpl. rewrite <- (app_nil_r (map Stderr l)). apply filter_is_stdout_map. }
    cbn [fst snd]. rewrite E. split; [simpl; lia|]. split; [discriminate|]. reflexivity.
  - assert (E : forall l s, List.filter is_stdout
                              ((Open (opt_file o) :: map Stderr l) ++ [Stdout s])
                            = [Stdout s]).
    { intros l s. simpl. apply filter_is_stdout_map. }
    cbn [fst snd]. rewrite E. split; [simpl; lia|]. split; [|discriminate].
    intros r [= <-]. exists code. split; [reflexivity|]. split; [tauto|].
    split; [|eauto]. split.
    + intros ->. destruct Hc as [Hc|[Hc|Hc]]; discriminate.
    + intros H. destruct (map Stderr _); simpl in H; [discriminate|].
      injection H as _ H. destruct l; discriminate.
Qed.

(** X18. Diagnostic tracing starts at a verbosity of 3: at 2 or below a
    run writes nothing to the error channel; above 2, a run that opens the
    log writes the trace of every line that reports a delivery failure. *)
Theorem X18_verbosity_boundary py fs (o : options) :
  ((opt_verbose o <= 2)%nat -> List.filter is_stderr (main py fs o).1 = [])
  /\ (forall lines,
        (2 < opt_verbose o)%nat -> threshold_given o ->
        fs (opt_file o) = Some lines ->
        List.filter is_stderr (main py fs o).1 = map Stderr (flat_map trace_of lines)).
Proof.
  split.
  - intros V. apply Nat.ltb_ge in V.
    destruct (main_cases py fs o)
      as [H|[(_ & _ & H)|[(lines & e & _ & _ & H)|(lines & code & _ & _ & _ & H)]]];
      rewrite H, ?V; reflexivity.
  - intros lines V G F. apply Nat.ltb_lt in V.
    rewrite (main_scan py fs o lines G F), scan_err, V.
    destruct (report py _); cbn [fst]; simpl.
    + rewrite filter_is_stderr_map. simpl. apply app_nil_r.
    + rewrite <- (app_nil_r (map Stderr _)) at 1. rewrite filter_is_stderr_map.
      simpl. apply app_nil_r.
Qed.

(** X19. A log without a line that reports a delivery failure (an empty
    log among them) is reported, under positive thresholds, as Ok with
    both counts at zero, and nothing is traced. *)
Theorem X19_nothing_to_report py fs (o : options) (lines : list str) (w c : Z) :
  List.filter qualifies lines = [] ->
  opt_warn o = Some w -> opt_crit o = Some c -> 0 < w -> 0 < c ->
  fs (opt_file o) = Some lines ->
  main py fs o
  = ([Open (opt_file o);
      Stdout (lit "OK 0 worrisome | blocked=0 worrisome=0" ++ [newline])],
     Return (Some OK)).
Proof.
  intros Q Hw Hc Pw Pc F.
  rewrite (main_both py fs o lines w c Hw Hc) by (try exact F; left; lia).
  destruct (no_qualifying lines Q) as (T & B & W).
  unfold blocked_count, worrisome_count. rewrite T, B, W.
  assert (S0 : size (list_to_set [] : gset str) = 0%nat) by reflexivity.
  rewrite S0.
  assert (E : status_of w c 0 = OK).
  { unfold status_of. change (Z.of_nat 0) with 0.
    rewrite (proj2 (Z.leb_gt c 0)), (proj2 (Z.leb_gt w 0)) by lia. reflexivity. }
  rewrite E. destruct (2 <? opt_verbose o)%nat; reflexivity.
Qed.

(** X22. With both thresholds supplied, not both 0, and a readable log,
    [main] opens the log, writes the trace when the verbosity is above 2,
    prints the note for the numbers of distinct blocked and worrisome
    identifiers, and returns the status of the worrisome number; the
    interpreter version makes no difference. *)
Theorem X22_main_with_both_thresholds py fs (o : options) (lines : list str) (w c : Z) :
  opt_warn o = Some w -> opt_crit o = Some c -> w <> 0 \/ c <> 0 ->
  fs (opt_file o) = Some lines ->
  main py fs o
  = ((Open (opt_file o)
        :: map Stderr (if (2 <? opt_verbose o)%nat then flat_map trace_of lines else []))
       ++ [Stdout (note_of (level_of (status_of w c (worrisome_count lines)))
                     (blocked_count lines) (worrisome_count lines) ++ [newline])],
     Return (Some (status_of w c (worrisome_count lines)))).
Proof. apply main_both. Qed.

(** X23. With the warning threshold alone on the command line, a run that
    opens the log ends, after the scan, with [TypeError] and no printed
    line under Python 3, and returns Critical under Python 2, whatever the
    log holds. *)
Theorem X23_warning_threshold_alone fs (o : options) (lines : list str) (w : Z) :
  opt_warn o = Some w -> w <> 0 -> opt_crit o = None ->
  fs (opt_file o) = Some lines ->
  main Py3 fs o
  = (Open (opt_file o)
       :: map Stderr (if (2 <? opt_verbose o)%nat then flat_map trace_of lines else []),
     Raise TypeError)
  /\ (main Py2 fs o).2 = Return (Some CRITICAL).
Proof.
  intros Hw Hn Hc F.
  assert (G : threshold_given o) by (exists w; auto).
  rewrite !(main_scan _ fs o lines G F), scan_err, Hw, Hc.
  destruct (scan_fields lines (Some w) None (2 <? opt_verbose o)%nat)
    as (_ & _ & A2 & _ & A3 & _).
  unfold report. rewrite A3, A2. cbn [negb int_ge]. simpl.
  destruct getitem_status_string as (_ & _ & -> & _). simpl.
  split; reflexivity.
Qed.

End MainFacts.

Section MatcherFacts.

Lemma lower_idem (a : ascii) : lower (lower a) = lower a.
Proof. destruct a as [[] [] [] [] [] [] [] []]; vm_compute; reflexivity. Qed.

Lemma lower_newline (a : ascii) :
  bool_decide (lower a = newline) = bool_decide (a = newline).
Proof. destruct a as [[] [] [] [] [] [] [] []]; vm_compute; reflexivity. Qed.

Lemma casefold_idem (s : str) : casefold (casefold s) = casefold s.
Proof.
  unfold casefold. rewrite List.map_map. apply List.map_ext, lower_idem.
Qed.

Lemma casefold_app (s1 s2 : str) : casefold (s1 ++ s2) = casefold s1 ++ casefold s2.
Proof. apply List.map_app. Qed.

Lemma casefold_eq_app (s l1 l2 : str) :
  casefold s = l1 ++ l2 ->
  exists s1 s2, s = s1 ++ s2 /\ casefold s1 = l1 /\ casefold s2 = l2.
Proof. apply List.map_eq_app. Qed.

Lemma no_newline_casefold (s : str) : no_newline (casefold s) = no_newline s.
Proof.
  induction s as [|a s IH]; simpl; [reflexivity|].
  rewrite lower_newline. f_equal. exact IH.
Qed.

Lemma signature_casefold (code word : string) (line : str) :
  signature_with (fun mid => no_newline mid = true) code word (casefold line)
  <-> signature_with (fun mid => no_newline mid = true) code word line.
Proof.
  split.
  - intros (pre' & a' & mid' & b' & post' & E & Ha & Hm & Hb).
    apply casefold_eq_app in E as (pre & r1 & -> & <- & E).
    apply casefold_eq_app in E as (a & r2 & -> & <- & E).
    apply casefold_eq_app in E as (mid & r3 & -> & <- & E).
    apply casefold_eq_app in E as (b & post & -> & <- & <-).
    exists pre, a, mid, b, post.
    rewrite casefold_idem in Ha, Hb. rewrite no_newline_casefold in Hm. auto.
  - intros (pre & a & mid & b & post & -> & Ha & Hm & Hb).
    exists (casefold pre), (casefold a), (casefold mid), (casefold b), (casefold post).
    rewrite !casefold_app, !casefold_idem, no_newline_casefold. auto.
Qed.

(** X20. The rejection check does not depend on letter case: a line and
    the same line in lower case get the same answer. *)
Theorem X20_rejection_ignores_case (line : str) :
  is_rejection (casefold line) = is_rejection line.
Proof.
  apply eq_true_iff_eq. rewrite !is_rejection_spec.
  unfold rejection, rejection_with. rewrite !signature_casefold. reflexivity.
Qed.

(** X21. Both patterns are searched for anywhere in the line: text put
    before or after a line that reports a delivery failure, or that
    carries a rejection signature, leaves it one. *)
Theorem X21_search_is_unanchored (pre line post : str) :
  (qualifies line = true -> qualifies (pre ++ line ++ post) = true)
  /\ (is_rejection line = true -> is_rejection (pre ++ line ++ post) = true).
Proof.
  split.
  - unfold qualifies. destruct (match_delivery_failure line) as [id|] eqn:E; [|discriminate].
    intros _. apply match_delivery_failure_sound in E
      as (p & pid & mid & st & q & -> & H).
    destruct (match_delivery_failure_complete
                (pre ++ (p ++ lit " postfix/smtp[" ++ pid ++ lit "]: " ++ id ++ lit ": "
                           ++ mid ++ lit ", status=" ++ st ++ lit " " ++ q) ++ post) id)
      as [id' ->]; [|reflexivity].
    exists (pre ++ p), pid, mid, st, (q ++ post).
    split; [|exact H]. rewrite <- !app_assoc. reflexivity.
  - rewrite !is_rejection_spec. unfold rejection, rejection_with.
    assert (S : forall code word,
               signature_with (fun mid => no_newline mid = true) code word line ->
               signature_with (fun mid => no_newline mid = true) code word
                 (pre ++ line ++ post)).
    { intros code word (p & a & mid & b & q & -> & H).
      exists (pre ++ p), a, mid, b, (q ++ post).
      split; [|exact H]. rewrite <- !app_assoc. reflexivity. }
    intros [H|[H|H]]; apply S in H; auto.
Qed.

(** X24. Only a quoted server reply makes a line worrisome: a line that
    nowhere holds [ said: ], in any letter case, fails the rejection
    check. *)
Theorem X24_no_reply_no_rejection (line : str) :
  ~ contains (lit " said: ") (casefold line) -> is_rejection line = false.
Proof.
  intros N. destruct (is_rejection line) eqn:R; [|reflexivity].
  exfalso. apply N. apply is_rejection_spec in R.
  assert (S : forall rest word,
             signature_with (fun mid => no_newline mid = true)
               (String.append " said: " rest) word line ->
             contains (lit " said: ") (casefold line)).
  { intros rest word (p & a & mid & b & q & -> & Ha & _).
    assert (E : casefold (lit (String.append " said: " rest))
                = lit " said: " ++ casefold (lit rest)) by reflexivity.
    exists (casefold p), (casefold (lit rest) ++ casefold (mid ++ b ++ q)).
    rewrite (casefold_app p), (casefold_app a), Ha, E, <- app_assoc. reflexivity. }
  destruct R as [H|[H|H]];
    [apply (S "550 " "spam")|apply (S "550 " "blocked")|apply (S "451 " "busy")];
    exact H.
Qed.

End MatcherFacts.

Section MoreReportFacts.
Import PostfixBounces.

(** X25. Unknown is the status of an aggregator that has not scanned, and
    of no other: after [process], on any aggregator and any log (an empty
    one among them), a [report] that returns gives Ok, Warning or
    Critical. *)
Theorem X25_scanned_is_never_unknown py (self self' : t) (err : list str) :
  report py (process self err).1 = Return self' ->
  exists code,
    exit_code self' = Some code
    /\ (code = OK \/ code = WARNING \/ code = CRITICAL)
    /\ code <> UNKNOWN.
Proof.
  intros R. destruct (process_fields self err) as (_ & _ & _ & Hp & _).
  apply (report_return py _ self' Hp) in R as (code & Hc & ->).
  exists code. split; [reflexivity|]. split; [exact Hc|].
  destruct Hc as [H|[H|H]]; rewrite H; discriminate.
Qed.

End MoreReportFacts.

(** ** The further theorems at sample inputs *)

Section Samples.
Import PostfixBounces.

Lemma X9_witness :
  exists self',
    report Py3 scan_spam = Return self' /\ report Py3 self' = Return self'.
Proof.
  assert (R : report Py3 scan_spam
              = Return (set_exit_note (set_exit_code scan_spam WARNING)
                          (lit "WARN 1 worrisome | blocked=1 worrisome=1")))
    by (vm_compute; reflexivity).
  eexists. split; [exact R|].
  exact (proj1 (X9_report_idempotent Py3 scan_spam _ R)).
Defined.

Lemma X10_witness :
  (size (worrisome (scan [line_retry] (Some 1%Z) (Some 2%Z) false).1)
   <= size (worrisome scan_spam))%nat
  /\ exists p' q' cp cq,
       report Py3 (scan [line_retry] (Some 1) (Some 2) false).1 = Return p'
       /\ report Py3 scan_spam = Return q'
       /\ exit_code p' = Some cp /\ exit_code q' = Some cq /\ cp <= cq.
Proof.
  assert (H : (size (worrisome (scan [line_retry] (Some 1%Z) (Some 2%Z) false).1)
               <= size (worrisome scan_spam))%nat) by (vm_compute; lia).
  split; [exact H|].
  apply (X10_report_monotone Py3 _ scan_spam 1 2); try (vm_compute; reflexivity).
  exact H.
Defined.

Lemma X12_witness :
  exists self' code,
    report Py3 (scan [line_spam] (Some 2) (Some 1) false).1 = Return self'
    /\ exit_code self' = Some code
    /\ (code = CRITICAL \/ code = OK)
    /\ (code = CRITICAL
        <-> 1 <= Z.of_nat (size (worrisome (scan [line_spam] (Some 2) (Some 1) false).1))).
Proof.
  apply (X12_inverted_thresholds Py3 _ 2 1); try (vm_compute; reflexivity).
  lia.
Defined.

Lemma X13_witness :
  exists self' code,
    report Py3 (scan [line_sent] (Some 0) (Some 0) false).1 = Return self'
    /\ exit_code self' = Some code
    /\ (0 <= 0 -> code = CRITICAL)
    /\ (0 <= 0 -> code <> OK).
Proof.
  apply (X13_nonpositive_thresholds Py3 _ 0 0); vm_compute; reflexivity.
Defined.

Lemma X14_witness :
  report Py3 (scan [line_spam] (Some 1) None false).1 = Raise TypeError
  /\ exists self',
       report Py2 (scan [line_spam] (Some 1) None false).1 = Return self'
       /\ exit_code self' = Some CRITICAL.
Proof.
  assert (Hp : processed (scan [line_spam] (Some 1) None false).1 = true)
    by (vm_compute; reflexivity).
  assert (Hc : crit (scan [line_spam] (Some 1) None false).1 = None)
    by (vm_compute; reflexivity).
  exact (proj1 (X14_missing_threshold _ Hp) Hc).
Defined.

Lemma X15_witness :
  threshold_given opts_elsewhere
  /\ only_maillog [line_spam] (opt_file opts_elsewhere) = None
  /\ main Py3 (only_maillog [line_spam]) opts_elsewhere
     = ([Open (opt_file opts_elsewhere)], Raise IOError).
Proof.
  assert (G : threshold_given opts_elsewhere).
  { exists 1. split; [discriminate|]. left. reflexivity. }
  assert (F : only_maillog [line_spam] (opt_file opts_elsewhere) = None)
    by (vm_compute; reflexivity).
  split; [exact G|]. split; [exact F|].
  exact (X15_missing_log Py3 _ opts_elsewhere G F).
Defined.

Lemma X18_witness :
  List.filter is_stderr (main Py3 (only_maillog [line_sent; line_busy]) opts_both).1
  = map Stderr (flat_map trace_of [line_sent; line_busy]).
Proof.
  apply (proj2 (X18_verbosity_boundary Py3 (only_maillog [line_sent; line_busy]) opts_both)).
  - simpl. lia.
  - exists 1. split; [discriminate|]. left. reflexivity.
  - vm_compute. reflexivity.
Defined.

Lemma X19_witness :
  List.filter qualifies [line_sent] = []
  /\ main Py3 (only_maillog [line_sent]) opts_both
     = ([Open (opt_file opts_both);
         Stdout (lit "OK 0 worrisome | blocked=0 worrisome=0" ++ [newline])],
        Return (Some OK)).
Proof.
  assert (Q : List.filter qualifies [line_sent] = []) by (vm_compute; reflexivity).
  split; [exact Q|].
  apply (X19_nothing_to_report Py3 (only_maillog [line_sent]) opts_both [line_sent] 1 2 Q);
    try reflexivity; lia.
Defined.

Lemma X21_witness :
  qualifies line_busy = true
  /\ qualifies (lit "<22>" ++ line_busy ++ lit " # copied") = true
  /\ is_rejection (lit "<22>" ++ line_busy ++ lit " # copied") = true.
Proof.
  assert (Q : qualifies line_busy = true) by (vm_compute; reflexivity).
  assert (R : is_rejection line_busy = true) by (vm_compute; reflexivity).
  split; [exact Q|].
  destruct (X21_search_is_unanchored (lit "<22>") line_busy (lit " # copied")) as [A B].
  split; [exact (A Q)|exact (B R)].
Defined.

Lemma X22_witness :
  (main Py3 (only_maillog [line_spam; line_retry; line_busy]) opts_both).2
  = Return (Some (status_of 1 2 (worrisome_count [line_spam; line_retry; line_busy]))).
Proof.
  rewrite (X22_main_with_both_thresholds Py3 (only_maillog [line_spam; line_retry; line_busy])
             opts_both [line_spam; line_retry; line_busy] 1 2);
    try reflexivity.
  - left. discriminate.
Defined.

Lemma X23_witness :
  (main Py3 (only_maillog [line_spam]) opts_warn_only).2 = Raise TypeError
  /\ (main Py2 (only_maillog [line_spam]) opts_warn_only).2 = Return (Some CRITICAL).
Proof.
  destruct (X23_warning_threshold_alone (only_maillog [line_spam]) opts_warn_only
              [line_spam] 1) as [A B]; try reflexivity; try discriminate.
  rewrite A. split; [reflexivity|exact B].
Defined.

Lemma X24_witness :
  ~ contains (lit " said: ") (casefold line_retry)
  /\ is_rejection line_retry = false.
Proof.
  assert (N : ~ contains (lit " said: ") (casefold line_retry)).
  { rewrite <- occurs_spec. vm_compute. discriminate. }
  split; [exact N|]. exact (X24_no_reply_no_rejection line_retry N).
Defined.

Lemma X25_witness :
  exists self' code,
    report Py3 (process (__init__ [] (Some 1) (Some 2) false) []).1 = Return self'
    /\ exit_code self' = Some code /\ code <> UNKNOWN.
Proof.
  assert (R : report Py3 (process (__init__ [] (Some 1) (Some 2) false) []).1
              = Return (set_exit_note
                          (set_exit_code (process (__init__ [] (Some 1) (Some 2) false) []).1 OK)
                          (lit "OK 0 worrisome | blocked=0 worrisome=0")))
    by (vm_compute; reflexivity).
  destruct (X25_scanned_is_never_unknown Py3 _ _ [] R) as (code & Hc & _ & Hn).
  eexists _, code. split; [exact R|]. split; [exact Hc|exact Hn].
Defined.

End Samples.

(** * Where the specification and the program part *)

Section Departures.
Import PostfixBounces.

Lemma only_maillog_maillog (lines : list str) : only_maillog lines maillog = Some lines.
Proof. unfold only_maillog. rewrite bool_decide_eq_true_2 by reflexivity. reflexivity. Qed.

(** C4 as written: a reply with code 550 followed by the word "spam"
    would be flagged, and a line would be flagged only for one of the three
    words.  The first line below holds such a reply, in the form [550-] of
    a reply of several lines, and is not flagged; the second holds none of
    the three words, only "unblocked", and is flagged. *)
Lemma C4_counterexample :
  (file_line line_550_dash_spam
   /\ (exists pre post,
         line_550_dash_spam = pre ++ lit " said: 550" ++ post
         /\ occurs_word (lit "spam") (casefold post) = true)
   /\ is_rejection line_550_dash_spam = false
   /\ worrisome (scan [line_550_dash_spam] (Some 1) (Some 2) false).1 = ∅)
  /\ (file_line line_unblocked
      /\ occurs_word (lit "spam") (casefold line_unblocked) = false
      /\ occurs_word (lit "blocked") (casefold line_unblocked) = false
      /\ occurs_word (lit "busy") (casefold line_unblocked) = false
      /\ is_rejection line_unblocked = true
      /\ worrisome (scan [line_unblocked] (Some 1) (Some 2) false).1
           !! lit "5D1B042F0" = Some true).
Proof.
  split.
  - split; [vm_compute; reflexivity|]. split.
    + exists (take 175 line_550_dash_spam), (drop (175 + 10) line_550_dash_spam).
      split; vm_compute; reflexivity.
    + split; vm_compute; reflexivity.
  - repeat split; vm_compute; reflexivity.
Qed.




(** C8. The program at [--crit 0] alone and at [--warn 0] alone: it takes
    the path of no threshold at all (the help, Unknown, no scan), although
    a threshold is given; beside a threshold that is not 0, the same 0 is
    taken as a threshold and the log is scanned.  The status codes are 0,
    1, 2 and 3. *)
Theorem C8_zero_threshold_alone py fs file verbose (lines : list str) :
  main py fs (Options None (Some 0) file verbose) = usage
  /\ main py fs (Options (Some 0) None file verbose) = usage
  /\ main py fs (Options None None file verbose) = usage
  /\ exit_status usage.2 = 3
  /\ (OK = 0 /\ WARNING = 1 /\ CRITICAL = 2 /\ UNKNOWN = 3)
  /\ main py (only_maillog lines) (Options (Some 0) (Some 5) maillog verbose)
     = ((Open maillog
           :: map Stderr (if (2 <? verbose)%nat then flat_map trace_of lines else []))
          ++ [Stdout (note_of (level_of (status_of 0 5 (worrisome_count lines)))
                        (blocked_count lines) (worrisome_count lines) ++ [newline])],
        Return (Some (status_of 0 5 (worrisome_count lines))))
  /\ (main py (only_maillog lines) (Options (Some 5) (Some 0) maillog verbose)).2
     = Return (Some CRITICAL).
Proof.
  split; [reflexivity|]. split; [reflexivity|]. split; [reflexivity|].
  split; [reflexivity|]. split; [repeat split|]. split.
  - apply (main_both py (only_maillog lines)
             (Options (Some 0) (Some 5) maillog verbose) lines 0 5);
      first [reflexivity|right; discriminate|apply only_maillog_maillog].
  - assert (E : main py (only_maillog lines) (Options (Some 5) (Some 0) maillog verbose)
                = ((Open maillog
                      :: map Stderr (if (2 <? verbose)%nat
                                     then flat_map trace_of lines else []))
                     ++ [Stdout (note_of (level_of (status_of 5 0 (worrisome_count lines)))
                                   (blocked_count lines) (worrisome_count lines)
                                   ++ [newline])],
                   Return (Some (status_of 5 0 (worrisome_count lines))))).
    { apply (main_both py (only_maillog lines)
               (Options (Some 5) (Some 0) maillog verbose) lines 5 0);
        first [reflexivity|left; discriminate|apply only_maillog_maillog]. }
    rewrite E. cbn [snd]. unfold status_of.
    rewrite (proj2 (Z.leb_le 0 (Z.of_nat (worrisome_count lines)))) by lia. reflexivity.
Qed.

End Departures.
